(** * FovDark loader: fingerprint, login sequence and heartbeat monitor

    A shallow embedding of the license logic of the two loaders,

      - [loader_fovdark_corrigido_pyqt6.py]: [gerar_hwid] and
        [LoginWorker.run];
      - [loader-example.py]: [FovDarkLicenseChecker] with [generate_hwid],
        [check_license_status], [send_heartbeat] and
        [start_license_monitoring];

    followed by the properties of the fingerprint, of the ordered login
    sequence and of the heartbeat loop.

    Conventions.  A Python [str] is a Rocq [string] holding its UTF-8
    bytes, so [str.encode()] is the identity on the bytes.  A JSON number is
    an integer ([Z]); fractional numbers are outside the model.  Machine
    words of the digest are [Z] reduced modulo [2^32]. *)

From Stdlib Require Import ZArith List String Ascii Lia Bool.
From Stdlib Require Import DecimalString DecimalZ DecimalPos.
Import ListNotations.

Local Open Scope Z_scope.
Local Open Scope string_scope.

(* ================================================================= *)
(** ** SHA-256, as computed by [hashlib.sha256] (FIPS 180-4) *)

Module SHA256.

Definition word_mod : Z := 2 ^ 32.

Definition add32 (x y : Z) : Z := (x + y) mod word_mod.
Definition not32 (x : Z) : Z := Z.lxor x 0xffffffff.
Definition shr (n x : Z) : Z := Z.shiftr x n.
Definition rotr (n x : Z) : Z :=
  Z.lor (Z.shiftr x n) (Z.shiftl x (32 - n) mod word_mod).

Definition Ch (x y z : Z) : Z := Z.lxor (Z.land x y) (Z.land (not32 x) z).
Definition Maj (x y z : Z) : Z :=
  Z.lxor (Z.lxor (Z.land x y) (Z.land x z)) (Z.land y z).
Definition Sigma0 (x : Z) : Z :=
  Z.lxor (Z.lxor (rotr 2 x) (rotr 13 x)) (rotr 22 x).
Definition Sigma1 (x : Z) : Z :=
  Z.lxor (Z.lxor (rotr 6 x) (rotr 11 x)) (rotr 25 x).
Definition sigma0 (x : Z) : Z :=
  Z.lxor (Z.lxor (rotr 7 x) (rotr 18 x)) (shr 3 x).
Definition sigma1 (x : Z) : Z :=
  Z.lxor (Z.lxor (rotr 17 x) (rotr 19 x)) (shr 10 x).

(** The first sixty-four primes. *)
Definition primes : list Z :=
  [2; 3; 5; 7; 11; 13; 17; 19; 23; 29; 31; 37; 41; 43; 47; 53;
   59; 61; 67; 71; 73; 79; 83; 89; 97; 101; 103; 107; 109; 113; 127; 131;
   137; 139; 149; 151; 157; 163; 167; 173; 179; 181; 191; 193; 197; 199;
   211; 223; 227; 229; 233; 239; 241; 251; 257; 263; 269; 271; 277; 281;
   283; 293; 307; 311].

(** Integer cube root, one bit at a time from bit [bits - 1] down. *)
Fixpoint cube_root (bits : nat) (n root : Z) : Z :=
  match bits with
  | O => root
  | S b =>
      let candidate := root + 2 ^ Z.of_nat b in
      cube_root b n (if (candidate ^ 3 <=? n)%Z then candidate else root)
  end.

(** The round constants: the first 32 bits of the fractional part of the
    cube root of each prime. *)
Definition K : list Z :=
  Eval vm_compute in
    map (fun p => cube_root 36 (p * 2 ^ 96) 0 mod word_mod) primes.

(** The eight working words. *)
Record state : Type := State
  { ha : Z; hb : Z; hc : Z; hd : Z; he : Z; hf : Z; hg : Z; hh : Z }.

(** The initial words: the first 32 bits of the fractional part of the
    square root of each of the first eight primes. *)
Definition initial_word (p : Z) : Z := Z.sqrt (p * 2 ^ 64) mod word_mod.

Definition H0 : state :=
  Eval vm_compute in
    State (initial_word 2) (initial_word 3) (initial_word 5) (initial_word 7)
          (initial_word 11) (initial_word 13) (initial_word 17)
          (initial_word 19).

(** Big-endian bytes of a number, [n] of them. *)
Fixpoint be_bytes (n : nat) (x : Z) : list Z :=
  match n with
  | O => []
  | S m => (x / 256 ^ Z.of_nat m) mod 256 :: be_bytes m x
  end.

Definition be_word (bs : list Z) : Z :=
  fold_left (fun acc b => acc * 256 + b) bs 0.

(** Message padding: a one bit, zeros up to 56 modulo 64 bytes, then the
    bit length on eight bytes. *)
Definition pad (msg : list Z) : list Z :=
  let len := Z.of_nat (List.length msg) in
  msg ++ [0x80] ++ repeat 0 (Z.to_nat ((55 - len) mod 64))
      ++ be_bytes 8 (8 * len).

(** The sixteen words of a 64-byte block. *)
Fixpoint block_words (n : nat) (bs : list Z) : list Z :=
  match n with
  | O => []
  | S m => be_word (firstn 4 bs) :: block_words m (skipn 4 bs)
  end.

(** Message schedule, most recent word first: [recent] holds
    [W(t-1); W(t-2); ...]. *)
Fixpoint schedule (n : nat) (recent : list Z) : list Z :=
  match n with
  | O => recent
  | S m =>
      let w := add32 (add32 (sigma1 (nth 1 recent 0)) (nth 6 recent 0))
                     (add32 (sigma0 (nth 14 recent 0)) (nth 15 recent 0)) in
      schedule m (w :: recent)
  end.

Definition round (s : state) (kw : Z * Z) : state :=
  let (k, w) := kw in
  let t1 := add32 (add32 (add32 (hh s) (Sigma1 (he s)))
                         (add32 (Ch (he s) (hf s) (hg s)) k)) w in
  let t2 := add32 (Sigma0 (ha s)) (Maj (ha s) (hb s) (hc s)) in
  State (add32 t1 t2) (ha s) (hb s) (hc s)
        (add32 (hd s) t1) (he s) (hf s) (hg s).

Definition compress (h : state) (block : list Z) : state :=
  let ws := rev (schedule 48 (rev (block_words 16 block))) in
  let s := fold_left round (combine K ws) h in
  State (add32 (ha h) (ha s)) (add32 (hb h) (hb s))
        (add32 (hc h) (hc s)) (add32 (hd h) (hd s))
        (add32 (he h) (he s)) (add32 (hf h) (hf s))
        (add32 (hg h) (hg s)) (add32 (hh h) (hh s)).

Fixpoint blocks (n : nat) (h : state) (bs : list Z) : state :=
  match n with
  | O => h
  | S m => blocks m (compress h (firstn 64 bs)) (skipn 64 bs)
  end.

Definition hash (msg : list Z) : state :=
  let p := pad msg in
  blocks (List.length p / 64) H0 p.

(** [digest()]: the 32 bytes of the final state. *)
Definition digest (msg : list Z) : list Z :=
  let s := hash msg in
  flat_map (be_bytes 4)
           [ha s; hb s; hc s; hd s; he s; hf s; hg s; hh s].

Definition hex_digit (d : Z) : ascii :=
  nth (Z.to_nat d) (list_ascii_of_string "0123456789abcdef") "0"%char.

Fixpoint hex_of_bytes (bs : list Z) : string :=
  match bs with
  | [] => EmptyString
  | b :: rest =>
      String (hex_digit (b / 16)) (String (hex_digit (b mod 16))
             (hex_of_bytes rest))
  end.

Definition bytes_of_string (s : string) : list Z :=
  map (fun c => Z.of_N (N_of_ascii c)) (list_ascii_of_string s).

(** [hashlib.sha256(s.encode()).hexdigest()] *)
Definition hexdigest (s : string) : string :=
  hex_of_bytes (digest (bytes_of_string s)).

End SHA256.

(* ================================================================= *)
(** ** Python values and exceptions *)

(** A decoded JSON document, as [response.json()] returns it. *)
#[local] Set Warnings "-register-all".
Inductive value : Type :=
| VNone
| VBool (b : bool)
| VInt (n : Z)
| VStr (s : string)
| VList (items : list value)
| VDict (entries : list (string * value)).

(** Exception classes that occur in the two loaders.  [ConnectTimeout]
    derives from both [ConnectionError] and [Timeout]; [JSONDecodeError] is
    the one of [requests.exceptions], a [RequestException]. *)
Inductive exn_class : Type :=
| Timeout
| ConnectTimeout
| ConnectionError
| JSONDecodeError
| RequestException
| KeyError
| AttributeError
| TypeError
| OtherException.

Record exn : Type := Exn { exn_cls : exn_class; exn_text : string }.

Definition is_Timeout (c : exn_class) : bool :=
  match c with Timeout | ConnectTimeout => true | _ => false end.

Definition is_ConnectionError (c : exn_class) : bool :=
  match c with ConnectionError | ConnectTimeout => true | _ => false end.

Definition is_RequestException (c : exn_class) : bool :=
  match c with
  | Timeout | ConnectTimeout | ConnectionError
  | JSONDecodeError | RequestException => true
  | _ => false
  end.

(** Texts that the interpreter produces and the sources do not: the [repr]
    of a list or dict, and the messages of the [TypeError] and
    [AttributeError] raised on a value of the wrong type.  They differ
    between interpreter versions and are kept as parameters. *)
Record runtime : Type := Runtime
  { repr_container : value -> string;
    not_subscriptable : value -> string;
    no_attribute : value -> string -> string;
    not_comparable : value -> string }.

Definition str_of_Z (n : Z) : string := NilZero.string_of_int (Z.to_int n).

(** [bool(v)] *)
Definition truthy (v : value) : bool :=
  match v with
  | VNone => false
  | VBool b => b
  | VInt n => negb (n =? 0)%Z
  | VStr s => negb (String.eqb s "")
  | VList l => match l with [] => false | _ => true end
  | VDict d => match d with [] => false | _ => true end
  end.

Fixpoint lookup (k : string) (d : list (string * value)) : option value :=
  match d with
  | [] => None
  | (k', v) :: rest => if String.eqb k k' then Some v else lookup k rest
  end.

Section Runtime.

Variable rt : runtime.

(** [str(v)], as an f-string formats a value. *)
Definition py_str (v : value) : string :=
  match v with
  | VNone => "None"
  | VBool true => "True"
  | VBool false => "False"
  | VInt n => str_of_Z n
  | VStr s => s
  | VList _ | VDict _ => repr_container rt v
  end.

(** [v.get(k, default)]: only a dict has the method. *)
Definition py_get (v : value) (k : string) (default : value)
  : exn + value :=
  match v with
  | VDict d =>
      inr (match lookup k d with Some x => x | None => default end)
  | _ => inl (Exn AttributeError (no_attribute rt v "get"))
  end.

(** [v[k]] with a string key. *)
Definition py_getitem (v : value) (k : string) : exn + value :=
  match v with
  | VDict d =>
      match lookup k d with
      | Some x => inr x
      | None => inl (Exn KeyError ("'" ++ k ++ "'"))
      end
  | _ => inl (Exn TypeError (not_subscriptable rt v))
  end.

(** [v <= 0]: integers and booleans compare with an integer. *)
Definition py_le_zero (v : value) : exn + bool :=
  match v with
  | VInt n => inr (n <=? 0)%Z
  | VBool b => inr (negb b)
  | _ => inl (Exn TypeError (not_comparable rt v))
  end.

End Runtime.

(* ================================================================= *)
(** ** The network and the host, as the loaders observe them *)

(** What [response.json()] does: the decoded document; the text of the
    decoding error when the body is not JSON, which [requests] raises as
    its own [JSONDecodeError]; or the text of an exception that the decoder
    raises on a JSON body and [requests] lets through as it is, such as
    [RecursionError] for a document nested too deep or [ValueError] for an
    integer of too many digits. *)
Inductive body : Type :=
| Json (v : value)
| NotJson (error_text : string)
| Undecodable (error_text : string).

Record response : Type := Response { status_code : Z; content : body }.

(** What one call of [requests.post] / [requests.get] does. *)
Inductive reply : Type :=
| Responds (r : response)
| Fails (e : exn).

(** What the library calls answer in one process.  [uuid.getnode()] gives
    one answer per process; how it comes about, and how it changes from one
    process to the next, is [getnode] below. *)
Record host : Type := Host
  { uuid_getnode : Z;
    platform_node : string;
    platform_processor : string;
    platform_system : string;
    environ : string -> option string;
    WINDOWS_REGISTRY_AVAILABLE : bool }.

(** [os.getenv(name, default)] *)
Definition getenv (h : host) (name default : string) : string :=
  match environ h name with Some v => v | None => default end.

(* ================================================================= *)
(** ** Fingerprint generators *)

(** [str.upper()] on the ASCII letters. *)
Definition upper_char (c : ascii) : ascii :=
  let n := nat_of_ascii c in
  if ((97 <=? n) && (n <=? 122))%nat then ascii_of_nat (n - 32) else c.

Fixpoint upper (s : string) : string :=
  match s with
  | EmptyString => EmptyString
  | String c rest => String (upper_char c) (upper rest)
  end.

(** ['{:02x}'.format(v)] for a byte [v]. *)
Definition format_02x (v : Z) : string :=
  String (SHA256.hex_digit (v / 16))
         (String (SHA256.hex_digit (v mod 16)) EmptyString).

(** [sep.join(parts)] *)
Fixpoint join (sep : string) (parts : list string) : string :=
  match parts with
  | [] => EmptyString
  | [p] => p
  | p :: rest => p ++ sep ++ join sep rest
  end.

(** [loader_fovdark_corrigido_pyqt6.py], [gerar_hwid]. *)
Definition gerar_hwid_raw (h : host) : string :=
  str_of_Z (uuid_getnode h) ++ getenv h "COMPUTERNAME" ""
                           ++ getenv h "USERNAME" "".

Definition gerar_hwid (h : host) : string :=
  SHA256.hexdigest (gerar_hwid_raw h).

(** [loader-example.py], [FovDarkLicenseChecker.generate_hwid]. *)
Definition system_info (h : host) : string :=
  platform_node h ++ "-" ++ platform_processor h ++ "-" ++ platform_system h.

Definition mac_address (h : host) : string :=
  join ":" (rev (map (fun elements =>
                        format_02x (Z.land (Z.shiftr (uuid_getnode h) elements)
                                           0xff))
                     [0; 2; 4; 6; 8; 10])).

Definition combined (h : host) : string :=
  system_info h ++ "-" ++ mac_address h.

Definition generate_hwid (h : host) : string :=
  upper (substring 0 16 (SHA256.hexdigest (combined h))).

(* ================================================================= *)
(** ** [uuid.getnode()], from one process to the next *)









(* ================================================================= *)
(** ** Programs: a trace of events and an outcome *)

Inductive signal : Type :=
| Status (text : string)
| Progress (percent : Z)
| Finished (success : bool) (message : string).

Inductive event : Type :=
| Print (line : string)
| Sleep (seconds : Z)
| Request (method url : string) (headers : list (string * string))
          (json : option value)
| Emit (s : signal)
| RegistryWrite (hwid : string).

(** How a block of statements ends. *)
Inductive outcome (R A : Type) : Type :=
| Next (a : A)        (* control reaches the following statement *)
| Returned (r : R)    (* a [return] was executed *)
| Raised (e : exn)    (* an exception propagates *)
| Waiting.            (* blocked: the next reply has not arrived *)

Arguments Next {R A} a.
Arguments Returned {R A} r.
Arguments Raised {R A} e.
Arguments Waiting {R A}.

Definition prog (R A : Type) : Type := (list event * outcome R A)%type.

Section Effects.

Context {R : Type}.

Definition ret {A} (a : A) : prog R A := ([], Next a).

Definition bind {A B} (p : prog R A) (k : A -> prog R B) : prog R B :=
  let (tr, o) := p in
  match o with
  | Next a => let (tr', o') := k a in ((tr ++ tr')%list, o')
  | Returned r => (tr, Returned r)
  | Raised e => (tr, Raised e)
  | Waiting => (tr, Waiting)
  end.

Definition emit (e : event) : prog R unit := ([e], Next tt).
Definition return_ {A} (r : R) : prog R A := ([], Returned r).
Definition raise {A} (e : exn) : prog R A := ([], Raised e).

Definition lift {A} (x : exn + A) : prog R A :=
  match x with inl e => raise e | inr a => ret a end.

Definition when (b : bool) (p : prog R unit) : prog R unit :=
  if b then p else ret tt.

(** [try: p except ...: h], [h] giving the handler of a caught exception. *)
Definition try_except {A} (p : prog R A) (h : exn -> option (prog R A))
  : prog R A :=
  let (tr, o) := p in
  match o with
  | Raised e =>
      match h e with
      | Some q => let (tr', o') := q in ((tr ++ tr')%list, o')
      | None => p
      end
  | _ => p
  end.

(** One call of [requests]: the request goes out, the reply comes back. *)
Definition request (method url : string) (headers : list (string * string))
           (json : option value) (r : reply) : prog R response :=
  bind (emit (Request method url headers json))
       (fun _ => match r with
                 | Responds resp => ret resp
                 | Fails e => raise e
                 end).

(** [response.json()] *)
Definition response_json (resp : response) : prog R value :=
  match content resp with
  | Json v => ret v
  | NotJson text => raise (Exn JSONDecodeError text)
  | Undecodable text => raise (Exn OtherException text)
  end.

End Effects.

(** Calling a function: its [return] value is the value of the call. *)
Definition call {R R'} (body : prog R unit) (fallthrough : R) : prog R' R :=
  let (tr, o) := body in
  match o with
  | Next _ => (tr, Next fallthrough)
  | Returned r => (tr, Next r)
  | Raised e => (tr, Raised e)
  | Waiting => (tr, Waiting)
  end.

Notation "x <- p ;; k" := (bind p (fun x => k))
  (at level 61, p at next level, right associativity).
Notation "p ;; k" := (bind p (fun _ => k))
  (at level 61, right associativity).

(** A block is settled when it ends without waiting for a reply. *)
Definition settled {R A} (p : prog R A) : Prop := snd p <> Waiting.

Definition nl : string := String (ascii_of_nat 10) EmptyString.

(* ================================================================= *)
(** ** [loader-example.py]: [FovDarkLicenseChecker] *)

Module FovDarkLicenseChecker.

Record checker : Type := Checker { server_url : string; hwid : string }.

(** [__init__] *)
Definition init (h : host) (url : string) : checker :=
  Checker url (generate_hwid h).

(** The dict both calls return for a failure. *)
Definition failure (message : string) : value :=
  VDict [("valid", VBool false); ("message", VStr message)].

Definition loader_call (self : checker) (path : string) (r : reply)
  : prog value unit :=
  try_except
    (response <- request "POST" (server_url self ++ path) []
                         (Some (VDict [("hwid", VStr (hwid self))])) r ;;
     if (status_code response =? 200)%Z then
       data <- response_json response ;;
       return_ data
     else
       return_ (failure ("Erro HTTP " ++ str_of_Z (status_code response))))
    (fun e =>
       if is_RequestException (exn_cls e)
       then Some (return_ (failure ("Erro de conexão: " ++ exn_text e)))
       else None).

Definition check_license_status (self : checker) (r : reply)
  : prog value unit :=
  loader_call self "/api/loader/license-status" r.

Definition send_heartbeat (self : checker) (r : reply) : prog value unit :=
  loader_call self "/api/loader/heartbeat" r.

(** The request of one heartbeat, as it appears in a trace. *)
Definition heartbeat_request (self : checker) : event :=
  Request "POST" (server_url self ++ "/api/loader/heartbeat") []
          (Some (VDict [("hwid", VStr (hwid self))])).

Section Monitoring.

Variable rt : runtime.
Variable self : checker.

(** The [d h m] of a remaining-time object, as the f-strings print it. *)
Definition remaining_text (remaining : value) : prog bool string :=
  d <- lift (py_get rt remaining "days" (VInt 0)) ;;
  h <- lift (py_get rt remaining "hours" (VInt 0)) ;;
  m <- lift (py_get rt remaining "minutes" (VInt 0)) ;;
  ret (py_str rt d ++ "d " ++ py_str rt h ++ "h " ++ py_str rt m ++ "m").

(** One turn of the [while True] loop, up to the point where it either
    returns or goes round again. *)
Definition heartbeat_iteration (r : reply) : prog bool unit :=
  emit (Sleep 60) ;;
  heartbeat <- call (send_heartbeat self r) VNone ;;
  valid <- lift (py_get rt heartbeat "valid" VNone) ;;
  when (negb (truthy valid))
       (message <- lift (py_get rt heartbeat "message" VNone) ;;
        emit (Print ("[ERRO] Licença expirada ou inválida: "
                       ++ py_str rt message)) ;;
        return_ false) ;;
  remaining <- lift (py_get rt heartbeat "timeRemaining" (VDict [])) ;;
  text <- remaining_text remaining ;;
  emit (Print ("[HEARTBEAT] Tempo restante: " ++ text)) ;;
  total <- lift (py_get rt remaining "totalMinutes" (VInt 0)) ;;
  expired <- lift (py_le_zero rt total) ;;
  when expired
       (emit (Print "[ERRO] Licença expirada!") ;;
        return_ false).

(** The loop against the replies received so far, one per heartbeat. *)
Fixpoint heartbeat_loop (beats : list reply) : prog bool unit :=
  match beats with
  | [] => ([], Waiting)
  | r :: rest => heartbeat_iteration r ;; heartbeat_loop rest
  end.

Definition start_license_monitoring (first : reply) (beats : list reply)
  : prog bool unit :=
  emit (Print "[FOVDARK] Iniciando verificação de licença...") ;;
  emit (Print ("[FOVDARK] HWID: " ++ hwid self)) ;;
  status <- call (check_license_status self first) VNone ;;
  valid <- lift (py_get rt status "valid" VNone) ;;
  when (negb (truthy valid))
       (message <- lift (py_get rt status "message" VNone) ;;
        emit (Print ("[ERRO] " ++ py_str rt message)) ;;
        return_ false) ;;
  plan <- lift (py_get rt status "plan" VNone) ;;
  emit (Print ("[OK] Licença válida - Plano: " ++ py_str rt plan)) ;;
  remaining <- lift (py_get rt status "timeRemaining" (VDict [])) ;;
  text <- remaining_text remaining ;;
  emit (Print ("[OK] Tempo restante: " ++ text)) ;;
  heartbeat_loop beats.

End Monitoring.

End FovDarkLicenseChecker.

(* ================================================================= *)
(** ** [loader_fovdark_corrigido_pyqt6.py]: [LoginWorker] *)

Definition API_URL : string := "https://fovdark.shop".

(** [salvar_hwid_no_registro]: a best-effort write, its failures are
    swallowed by the function itself. *)
Definition salvar_hwid_no_registro {R} (h : host) (hwid : string)
  : prog R unit :=
  when (WINDOWS_REGISTRY_AVAILABLE h) (emit (RegistryWrite hwid)).

Module LoginWorker.

Record worker : Type := Worker { email : string; senha : string }.

(** The replies of the three calls of one login, in the order of the
    calls. *)
Record network : Type := Network
  { login_reply : reply; check_reply : reply; save_reply : reply }.

Definition login_url : string := API_URL ++ "/api/auth/login".
Definition check_url : string := API_URL ++ "/api/license/check".
Definition save_url : string := API_URL ++ "/api/hwid/save".

Definition msg_credentials : string := "Credenciais inválidas.".
Definition msg_check_status (status : Z) : string :=
  "Erro ao checar licença." ++ nl ++ "Status: " ++ str_of_Z status.
Definition msg_expired : string :=
  "LICENSE_EXPIRED:Licença expirada ou inválida." ++ nl
    ++ "Renove para continuar.".
Definition msg_unauthorized : string :=
  "🚨 Acesso Não Autorizado." ++ nl
    ++ "Detectamos uma tentativa de uso com PC não autorizado." ++ nl ++ nl
    ++ "Isso pode indicar tentativa de compartilhamento de conta ou uso indevido."
    ++ nl
    ++ "Seu acesso poderá ser bloqueado após múltiplas tentativas.".
Definition msg_timeout : string := "Tempo limite de conexão excedido.".
Definition msg_connection : string := "Erro de conexão com o servidor.".

(** The login request, as it appears in a trace. *)
Definition login_request (self : worker) : event :=
  Request "POST" login_url [("Content-Type", "application/json")]
          (Some (VDict [("email", VStr (email self));
                        ("password", VStr (senha self))])).

Definition finished (success : bool) (message : string) : prog unit unit :=
  emit (Emit (Finished success message)).

Section Run.

Variable rt : runtime.
Variable h : host.
Variable self : worker.
Variable net : network.

(** The body of the [try]. *)
Definition attempt : prog unit unit :=
  emit (Emit (Status "Conectando ao servidor...")) ;;
  emit (Emit (Progress 20)) ;;
  r <- request "POST" login_url [("Content-Type", "application/json")]
               (Some (VDict [("email", VStr (email self));
                             ("password", VStr (senha self))]))
               (login_reply net) ;;
  when (negb (status_code r =? 200)%Z)
       (finished false msg_credentials ;; return_ tt) ;;
  emit (Emit (Progress 50)) ;;
  emit (Emit (Status "Verificando licença...")) ;;
  login_json <- response_json r ;;
  token <- lift (py_getitem rt login_json "token") ;;
  let headers := [("Authorization", "Bearer " ++ py_str rt token)] in
  let hwid_atual := gerar_hwid h in
  r2 <- request "GET" check_url headers None (check_reply net) ;;
  when (negb (status_code r2 =? 200)%Z)
       (finished false (msg_check_status (status_code r2)) ;;
        return_ tt) ;;
  dados_licenca <- response_json r2 ;;
  valid <- lift (py_get rt dados_licenca "valid" (VBool false)) ;;
  when (negb (truthy valid))
       (finished false msg_expired ;; return_ tt) ;;
  emit (Emit (Progress 80)) ;;
  emit (Emit (Status "Validando hardware...")) ;;
  res_hwid <- request "POST" save_url headers
                      (Some (VDict [("hwid", VStr hwid_atual)]))
                      (save_reply net) ;;
  when (negb (status_code res_hwid =? 200)%Z)
       (finished false msg_unauthorized ;; return_ tt) ;;
  emit (Emit (Progress 100)) ;;
  salvar_hwid_no_registro h hwid_atual ;;
  dias <- lift (py_get rt dados_licenca "days_remaining" (VStr "??")) ;;
  finished true ("Licença ativa! Dias restantes: " ++ py_str rt dias).

(** The three [except] clauses, tried in order; the last one catches
    every [Exception]. *)
Definition handler (e : exn) : option (prog unit unit) :=
  if is_Timeout (exn_cls e) then Some (finished false msg_timeout)
  else if is_ConnectionError (exn_cls e)
       then Some (finished false msg_connection)
       else Some (finished false ("Erro de conexão: " ++ exn_text e)).

Definition run : prog unit unit := try_except attempt handler.

End Run.

End LoginWorker.

(* ================================================================= *)
(** ** [FovDarkLoader.login_finished]: what the window does with the result *)

(** [needle in haystack] *)
Fixpoint contains (needle haystack : string) : bool :=
  prefix needle haystack
  || match haystack with
     | EmptyString => false
     | String _ rest => contains needle rest
     end.

(** [s.replace(old, new)] for a non-empty [old]; [skip] counts the
    characters of a match still to be dropped. *)
Fixpoint replace_from (old new : string) (skip : nat) (s : string) : string :=
  match s with
  | EmptyString => EmptyString
  | String c rest =>
      match skip with
      | S k => replace_from old new k rest
      | O =>
          if prefix old s
          then new ++ replace_from old new (String.length old - 1) rest
          else String c (replace_from old new O rest)
      end
  end.

Definition replace (old new s : string) : string := replace_from old new O s.

(** A [CustomMessageBox]: title, text and kind. *)
Record dialog : Type := Dialog
  { title : string; text : string; msg_type : string }.

(** The dialog shown, and whether the "execute" button becomes visible. *)
Definition login_finished (success : bool) (message : string)
  : dialog * bool :=
  if success then (Dialog "Sucesso" message "info", true)
  else if contains "LICENSE_EXPIRED:" message
       then (Dialog "Licença Expirada"
                    (replace "LICENSE_EXPIRED:" "" message) "warning", false)
       else (Dialog "Erro" message "error", false).

(* ================================================================= *)
(** ** Reading a trace *)

Definition is_request_to (url : string) (e : event) : bool :=
  match e with
  | Request _ u _ _ => String.eqb u url
  | _ => false
  end.

Definition is_request (e : event) : bool :=
  match e with Request _ _ _ _ => true | _ => false end.

Definition finished_of (e : event) : option (bool * string) :=
  match e with
  | Emit (Finished ok msg) => Some (ok, msg)
  | _ => None
  end.

(** The [finished] signals of a trace, in order. *)
Fixpoint finished_signals (tr : list event) : list (bool * string) :=
  match tr with
  | [] => []
  | e :: rest =>
      match finished_of e with
      | Some f => f :: finished_signals rest
      | None => finished_signals rest
      end
  end.



(** The login call failed: an exception, or a status other than 200. *)
Definition call_failed (r : reply) : Prop :=
  match r with
  | Responds resp => status_code resp <> 200
  | Fails _ => True
  end.


(** The states of the session, section 3 of the design. *)
Inductive MonitorState : Type :=
| Idle
| Authenticating
| CheckingLicense
| BindingFingerprint
| Monitoring
| Expired
| Failed
| Stopped.

(** The state a login session is in after one more event: a state is
    entered when its call goes out, [Monitoring] and [Failed] when the
    worker reports its result. *)
Definition session_step (s : MonitorState) (e : event) : MonitorState :=
  match e with
  | Request _ u _ _ =>
      if String.eqb u LoginWorker.login_url then Authenticating
      else if String.eqb u LoginWorker.check_url then CheckingLicense
      else if String.eqb u LoginWorker.save_url then BindingFingerprint
      else s
  | Emit (Finished true _) => Monitoring
  | Emit (Finished false _) => Failed
  | _ => s
  end.

(** All the states a session goes through, the initial one first. *)
Fixpoint session_states (s : MonitorState) (tr : list event)
  : list MonitorState :=
  match tr with
  | [] => [s]
  | e :: rest => s :: session_states (session_step s e) rest
  end.

Definition final_state (tr : list event) : MonitorState :=
  fold_left session_step tr Idle.

(* ================================================================= *)
(** ** Character classes of a fingerprint *)

Definition is_digit (c : ascii) : bool :=
  let n := nat_of_ascii c in ((48 <=? n) && (n <=? 57))%nat.

Definition is_lower_hex (c : ascii) : bool :=
  let n := nat_of_ascii c in
  is_digit c || ((97 <=? n) && (n <=? 102))%nat.

Definition is_upper_hex (c : ascii) : bool :=
  let n := nat_of_ascii c in
  is_digit c || ((65 <=? n) && (n <=? 70))%nat.

Fixpoint all_chars (p : ascii -> bool) (s : string) : bool :=
  match s with
  | EmptyString => true
  | String c rest => p c && all_chars p rest
  end.

(* ================================================================= *)
(** ** Sample machines, replies and sessions *)

Definition sample_environ (name : string) : option string :=
  if String.eqb name "COMPUTERNAME" then Some "PC-01"
  else if String.eqb name "USERNAME" then Some "ana"
  else None.

Definition sample_host : host :=
  Host 0x1a2b3c4d5e6f "PC-01" "Intel64 Family 6" "Windows"
       sample_environ true.

(** The same machine seen by another process: other variables in the
    environment, no registry module. *)
Definition sample_host_restarted : host :=
  Host 0x1a2b3c4d5e6f "PC-01" "Intel64 Family 6" "Windows"
       (fun name => if String.eqb name "TEMP" then Some "C:/Temp"
                    else sample_environ name)
       false.


Definition sample_runtime : runtime :=
  Runtime (fun _ => "[...]")
          (fun _ => "object is not subscriptable")
          (fun _ name => "object has no attribute '" ++ name ++ "'")
          (fun _ => "'<=' not supported").

Definition ok200 (v : value) : reply := Responds (Response 200 (Json v)).

(** A [LicenseStatus] on the wire. *)
Definition license_status (valid : bool) (message plan : string)
           (days hours minutes totalMinutes : Z) : list (string * value) :=
  [("valid", VBool valid); ("message", VStr message); ("plan", VStr plan);
   ("timeRemaining",
    VDict [("days", VInt days); ("hours", VInt hours);
           ("minutes", VInt minutes); ("totalMinutes", VInt totalMinutes)])].


Definition sample_checker : FovDarkLicenseChecker.checker :=
  FovDarkLicenseChecker.init sample_host "http://localhost:5000".

Definition sample_worker : LoginWorker.worker :=
  LoginWorker.Worker "ana@example.com" "segredo".

Definition token_T1 : value := VDict [("token", VStr "T1")].

Definition licence_5_days : list (string * value) :=
  [("valid", VBool true); ("days_remaining", VInt 5)].

Definition sample_status (totalMinutes : Z) : list (string * value) :=
  license_status true "ok" "pro" 0 1 (totalMinutes - 60) totalMinutes.

Definition sample_session (save : reply) (licence : list (string * value))
  : LoginWorker.network :=
  LoginWorker.Network (ok200 token_T1) (ok200 (VDict licence)) save.

(* ================================================================= *)
(** ** [loader-example.py]: [main] *)

(** The first request of [start_license_monitoring], as it appears in a
    trace. *)
Definition license_status_request (self : FovDarkLicenseChecker.checker)
  : event :=
  Request "POST"
          (FovDarkLicenseChecker.server_url self
             ++ "/api/loader/license-status") []
          (Some (VDict [("hwid", VStr (FovDarkLicenseChecker.hwid self))])).

(** [input(prompt)]: the prompt is written, then a line is read; [None] is
    a closed standard input. *)
Definition input (prompt : string) (stdin : option string)
  : prog unit string :=
  emit (Print prompt) ;;
  match stdin with
  | Some line => ret line
  | None => raise (Exn OtherException "EOF when reading a line")
  end.

(** [main], against the replies of the server and the line typed at the
    prompt.  A function that ends without [return] gives [None], which is
    false in the [if]. *)
Definition main (rt : runtime) (h : host) (first : reply)
           (beats : list reply) (stdin : option string) : prog unit unit :=
  emit (Print "=== FovDark Loader - Sistema de Licenças ===") ;;
  let license_checker :=
    FovDarkLicenseChecker.init h "http://localhost:5000" in
  started <- call (FovDarkLicenseChecker.start_license_monitoring
                     rt license_checker first beats) false ;;
  if started : bool then
    emit (Print "[OK] Iniciando cheat...")
  else
    emit (Print "[ERRO] Não é possível iniciar - licença inválida") ;;
    _ <- input "Pressione Enter para sair..." stdin ;;
    ret tt.

(** A block never returns [r]. *)
Definition never_returns {R A} (r : R) (p : prog R A) : Prop :=
  snd p <> Returned r.

(** The events of a trace that are not output on the console. *)
Definition is_print (e : event) : bool :=
  match e with Print _ => true | _ => false end.

Definition actions (tr : list event) : list event :=
  filter (fun e => negb (is_print e)) tr.

(** [k] rounds of "sleep a minute, send a heartbeat". *)
Fixpoint heartbeat_rounds (self : FovDarkLicenseChecker.checker) (k : nat)
  : list event :=
  match k with
  | O => []
  | S k' => Sleep 60 :: FovDarkLicenseChecker.heartbeat_request self
                     :: heartbeat_rounds self k'
  end.

(** A block is quiet when it does nothing but print. *)
Definition quiet {R A} (p : prog R A) : Prop := actions (fst p) = [].

(** Every event of the trace of a block satisfies [P]. *)
Definition trace_all {R A} (P : event -> Prop) (p : prog R A) : Prop :=
  Forall P (fst p).

(** The line that announces the start of the protected program. *)
Definition start_announcement : event := Print "[OK] Iniciando cheat...".

(* ================================================================= *)
(** ** Reading the replies of a login *)

(** The token of a login reply: status 200 and a JSON object with a
    [token]. *)
Definition login_token (r : reply) : option value :=
  match r with
  | Responds (Response status (Json (VDict d))) =>
      if (status =? 200)%Z then lookup "token" d else None
  | _ => None
  end.

(** The JSON object of a license reply with status 200. *)
Definition licence_of (r : reply) : option (list (string * value)) :=
  match r with
  | Responds (Response status (Json (VDict d))) =>
      if (status =? 200)%Z then Some d else None
  | _ => None
  end.

(** The reply is a response with status 200. *)
Definition accepted (r : reply) : bool :=
  match r with
  | Responds resp => (status_code resp =? 200)%Z
  | Fails _ => false
  end.

(** [d.get(k, default)] on the entries of an object. *)
Definition get_or (d : list (string * value)) (k : string) (default : value)
  : value :=
  match lookup k d with Some v => v | None => default end.

(** The requests that follow the login, as they appear in a trace. *)
Definition check_request (authorization : string) : event :=
  Request "GET" LoginWorker.check_url [("Authorization", authorization)] None.

Definition save_request (authorization hwid : string) : event :=
  Request "POST" LoginWorker.save_url [("Authorization", authorization)]
          (Some (VDict [("hwid", VStr hwid)])).

(** A 200 response whose body is not JSON. *)
Definition ok_not_json (error_text : string) : reply :=
  Responds (Response 200 (NotJson error_text)).

(* ================================================================= *)
(** ** [str.strip()] *)

Definition bytes (codes : list nat) : string :=
  string_of_list_ascii (map ascii_of_nat codes).

(** The characters for which [str.isspace()] holds, in UTF-8. *)
Definition whitespace : list string :=
  map bytes
      ([ [9]; [10]; [11]; [12]; [13]; [28]; [29]; [30]; [31]; [32];
        [194; 133]; [194; 160]; [225; 154; 128];
        [226; 128; 128]; [226; 128; 129]; [226; 128; 130]; [226; 128; 131];
        [226; 128; 132]; [226; 128; 133]; [226; 128; 134]; [226; 128; 135];
        [226; 128; 136]; [226; 128; 137]; [226; 128; 138];
        [226; 128; 168]; [226; 128; 169]; [226; 128; 175];
        [226; 129; 159]; [227; 128; 128] ])%nat.

(** The length of the first of [seqs] that [s] starts with, 0 if none. *)
Fixpoint leading (seqs : list string) (s : string) : nat :=
  match seqs with
  | [] => O
  | q :: rest => if prefix q s then String.length q else leading rest s
  end.

(** Drop the sequences of [seqs] from the front of [s]; [skip] counts the
    bytes of a sequence still to be dropped. *)
Fixpoint drop_leading (seqs : list string) (skip : nat) (s : string)
  : string :=
  match s with
  | EmptyString => EmptyString
  | String c rest =>
      match skip with
      | S k => drop_leading seqs k rest
      | O =>
          match leading seqs s with
          | S k => drop_leading seqs k rest
          | O => s
          end
      end
  end.

Definition reverse (s : string) : string :=
  string_of_list_ascii (rev (list_ascii_of_string s)).

Definition lstrip (s : string) : string := drop_leading whitespace O s.

Definition rstrip (s : string) : string :=
  reverse (drop_leading (map reverse whitespace) O (reverse s)).

Definition strip (s : string) : string := rstrip (lstrip s).

(* ================================================================= *)
(** ** The saved credentials *)

(** How writing [LOGIN_FILE] can fail.  Either [open(LOGIN_FILE, "w")]
    raises, and the file is as it was.  Or the file is opened, which
    empties it, and [json.dump] or the closing of the file raises: [remains]
    is what the file then holds, as it reads back, a text cut short being
    no JSON. *)
Inductive write_failure : Type :=
| OpenFails (e : exn)
| DumpFails (e : exn) (remains : body).

(** The file [LOGIN_FILE]: its content when it exists, the error that
    opening it for reading meets, and the way writing it fails. *)
Record disk : Type := Disk
  { login_file : option body;
    read_error : option exn;
    write_error : option write_failure }.

(** [salvar_login_local]: a failure to write is swallowed, but not undone. *)
Definition salvar_login_local (d : disk) (email senha : string) : disk :=
  match write_error d with
  | Some (OpenFails _) => d
  | Some (DumpFails _ remains) =>
      Disk (Some remains) (read_error d) (write_error d)
  | None =>
      Disk (Some (Json (VDict [("email", VStr email);
                               ("senha", VStr senha)])))
           (read_error d) None
  end.

(** [carregar_login_local] *)
Definition carregar_login_local (rt : runtime) (d : disk)
  : prog (value * value) unit :=
  try_except
    (match login_file d with
     | Some content =>
         match read_error d with Some e => raise e | None => ret tt end ;;
         dados <- match content with
                  | Json v => ret v
                  | NotJson text => raise (Exn OtherException text)
                  | Undecodable text => raise (Exn OtherException text)
                  end ;;
         email <- lift (py_get rt dados "email" (VStr "")) ;;
         senha <- lift (py_get rt dados "senha" (VStr "")) ;;
         return_ (email, senha)
     | None => ret tt
     end)
    (fun _ => Some (ret tt)) ;;
  return_ (VStr "", VStr "").

(* ================================================================= *)
(** ** [FovDarkLoader]: the window *)

(** What the methods below read and set on the widgets. *)
Record window : Type := Window
  { email_text : string;          (* entry_email.text() *)
    senha_text : string;          (* entry_senha.text() *)
    lembrar_checked : bool;       (* check_lembrar.isChecked() *)
    email_enabled : bool;
    senha_enabled : bool;
    lembrar_enabled : bool;
    login_label : string;         (* btn_login.text() *)
    login_enabled : bool;
    executar_visible : bool;      (* btn_executar *)
    executar_enabled : bool;
    progress_visible : bool;      (* progress_bar *)
    progress_value : Z;
    status_text : string }.       (* status_label *)

(** [set_ui_enabled] *)
Definition set_ui_enabled (enabled : bool) (w : window) : window :=
  Window (email_text w) (senha_text w) (lembrar_checked w)
         enabled enabled enabled
         (login_label w) enabled
         (executar_visible w) enabled
         (progress_visible w) (progress_value w) (status_text w).

(** [progress_bar.setVisible(v)], [progress_bar.setValue(n)] and
    [status_label.setText(s)]. *)
Definition set_progress_visible (v : bool) (w : window) : window :=
  Window (email_text w) (senha_text w) (lembrar_checked w)
         (email_enabled w) (senha_enabled w) (lembrar_enabled w)
         (login_label w) (login_enabled w)
         (executar_visible w) (executar_enabled w)
         v (progress_value w) (status_text w).

Definition set_progress_value (n : Z) (w : window) : window :=
  Window (email_text w) (senha_text w) (lembrar_checked w)
         (email_enabled w) (senha_enabled w) (lembrar_enabled w)
         (login_label w) (login_enabled w)
         (executar_visible w) (executar_enabled w)
         (progress_visible w) n (status_text w).

Definition set_status (s : string) (w : window) : window :=
  Window (email_text w) (senha_text w) (lembrar_checked w)
         (email_enabled w) (senha_enabled w) (lembrar_enabled w)
         (login_label w) (login_enabled w)
         (executar_visible w) (executar_enabled w)
         (progress_visible w) (progress_value w) s.

(** [load_saved_credentials], called once when the window is built.
    [setText] takes a string: given anything else it raises [TypeError],
    which nothing catches. *)
Definition load_saved_credentials (rt : runtime) (d : disk) (w : window)
  : exn_class + window :=
  match snd (carregar_login_local rt d) with
  | Returned (email, senha) =>
      if truthy email && truthy senha then
        match email, senha with
        | VStr e, VStr s =>
            inr (Window e s true
                        (email_enabled w) (senha_enabled w)
                        (lembrar_enabled w)
                        (login_label w) (login_enabled w)
                        (executar_visible w) (executar_enabled w)
                        (progress_visible w) (progress_value w)
                        (status_text w))
        | _, _ => inl TypeError
        end
      else inr w
  | Raised e => inl (exn_cls e)
  | _ => inr w
  end.

(** What one call of [login] leaves behind. *)
Record login_result : Type := LoginResult
  { window_after : window;
    disk_after : disk;
    shown : option dialog;
    started : option LoginWorker.worker }.

(** [login] *)
Definition login (d : disk) (w : window) : login_result :=
  let email := strip (email_text w) in
  let senha := strip (senha_text w) in
  if String.eqb email "" || String.eqb senha "" then
    LoginResult w d (Some (Dialog "Erro" "Preencha email e senha!" "info"))
                None
  else
    let d' := if lembrar_checked w then salvar_login_local d email senha
              else d in
    LoginResult
      (set_progress_value 0 (set_progress_visible true
                                                  (set_ui_enabled false w)))
      d' None (Some (LoginWorker.Worker email senha)).

(** The window part of [login_finished]; the dialog is [login_finished]
    above. *)
Definition login_finished_window (success : bool) (w : window) : window :=
  let w1 := set_status "" (set_progress_visible false
                                                 (set_ui_enabled true w)) in
  if success then
    Window (email_text w1) (senha_text w1) (lembrar_checked w1)
           (email_enabled w1) (senha_enabled w1) (lembrar_enabled w1)
           "LOGIN REALIZADO" false
           true (executar_enabled w1)
           (progress_visible w1) (progress_value w1) (status_text w1)
  else w1.

(** The slots connected to the signals of the login worker. *)
Definition on_login_signal (s : signal) (w : window) : window :=
  match s with
  | Progress n => set_progress_value n w
  | Status text => set_status text w
  | Finished success _ => login_finished_window success w
  end.

(** The signals of a trace, delivered in order. *)
Definition deliver (tr : list event) (w : window) : window :=
  fold_left (fun w e => match e with
                        | Emit s => on_login_signal s w
                        | _ => w
                        end) tr w.

(** [executar_script] and the window part of [execute_finished]. *)
Definition executar_script (w : window) : window :=
  set_progress_value 0 (set_progress_visible true (set_ui_enabled false w)).

Definition execute_finished_window (w : window) : window :=
  set_status "" (set_progress_visible false (set_ui_enabled true w)).

(** A window as [setup_ui] leaves it, but for the progress value. *)
Definition sample_window (email senha : string) (lembrar : bool) : window :=
  Window email senha lembrar true true true "ENTRAR" true false true
         false 0 "".

Definition empty_disk : disk := Disk None None None.

(** The five controls that [set_ui_enabled] switches. *)
Definition controls (w : window) : list bool :=
  [email_enabled w; senha_enabled w; login_enabled w; executar_enabled w;
   lembrar_enabled w].

(** The window once the login worker started by [login] has run against
    the replies [net] and its signals have been delivered; the window that
    [login] leaves when it starts no worker. *)
Definition after_login (rt : runtime) (h : host) (net : LoginWorker.network)
           (d : disk) (w : window) : window :=
  match started (login d w) with
  | Some worker =>
      deliver (fst (LoginWorker.run rt h worker net))
              (window_after (login d w))
  | None => window_after (login d w)
  end.

(* ================================================================= *)
(** ** [ExecuteWorker] and the installation of AutoHotkey *)

(** What the execution of the script does to the machine. *)
Inductive action : Type :=
| Signal (s : signal)
| HttpGet (url : string) (timeout : option Z)
| MakeDirs (path : string)
| WriteFile (path : string)
| Subprocess (argv : list string) (shell : bool)
| Popen (command : string) (shell : bool)
| RemoveTree (path : string).

(** The answer of the registry for the value [InstallDir] of a key:
    [NoEntry] is the [FileNotFoundError] of a missing key or value. *)
Inductive registry_entry : Type :=
| InstallDir (dir : string)
| NoEntry
| RegistryError (e : exn).

(** The machine, as the script meets it. *)
Record system : Type := System
  { registry_available : bool;          (* WINDOWS_REGISTRY_AVAILABLE *)
    hklm_autohotkey : registry_entry;   (* HKLM, SOFTWARE/AutoHotkey *)
    hkcu_autohotkey : registry_entry;   (* HKCU, SOFTWARE/AutoHotkey *)
    path_exists : string -> bool;       (* os.path.exists, before the run *)
    path_join : string -> string -> string;       (* os.path.join *)
    appdata : option string;            (* os.getenv("APPDATA") *)
    shortcuts_path : string;            (* the expanded Start Menu folder *)
    shortcuts_exist : bool;             (* ... once the installer has run *)
    makedirs_error : string -> option exn;
    write_error_at : string -> option exn;
    subprocess_error : list string -> option exn;
    popen_error : string -> option exn;
    installer_reply : reply;            (* requests.get(url_instalador) *)
    payload_reply : reply }.            (* requests.get(url, timeout=30) *)

Definition script (R A : Type) : Type := (list action * outcome R A)%type.

Module Script.

Section Combinators.

Context {R : Type}.

Definition ret {A} (a : A) : script R A := ([], Next a).

Definition bind {A B} (p : script R A) (k : A -> script R B) : script R B :=
  let (tr, o) := p in
  match o with
  | Next a => let (tr', o') := k a in ((tr ++ tr')%list, o')
  | Returned r => (tr, Returned r)
  | Raised e => (tr, Raised e)
  | Waiting => (tr, Waiting)
  end.

Definition act (a : action) : script R unit := ([a], Next tt).
Definition return_ {A} (r : R) : script R A := ([], Returned r).
Definition raise {A} (e : exn) : script R A := ([], Raised e).

(** An operation of the system that may raise, once it has come back. *)
Definition attempt (a : action) (error : option exn) : script R unit :=
  bind (act a)
       (fun _ => match error with Some e => raise e | None => ret tt end).

(** [try: p except Exception as e: h e] *)
Definition try_except {A} (p : script R A) (h : exn -> script R A)
  : script R A :=
  let (tr, o) := p in
  match o with
  | Raised e => let (tr', o') := h e in ((tr ++ tr')%list, o')
  | _ => p
  end.

(** [requests.get(url, timeout=...)], once it has come back; a call that
    never does is [stalling] below. *)
Definition get (url : string) (timeout : option Z) (r : reply)
  : script R response :=
  bind (act (HttpGet url timeout))
       (fun _ => match r with
                 | Responds resp => ret resp
                 | Fails e => raise e
                 end).

End Combinators.

(** Calling a function: its [return] value is the value of the call. *)
Definition call {R R'} (body : script R unit) (fallthrough : R)
  : script R' R :=
  let (tr, o) := body in
  match o with
  | Next _ => (tr, Next fallthrough)
  | Returned r => (tr, Next r)
  | Raised e => (tr, Raised e)
  | Waiting => (tr, Waiting)
  end.

End Script.

Declare Scope script_scope.
Delimit Scope script_scope with script.
Notation "x <~ p ;; k" := (Script.bind p (fun x => k))
  (at level 61, p at next level, right associativity) : script_scope.
Notation "p ~;; k" := (Script.bind p (fun _ => k))
  (at level 61, right associativity) : script_scope.

Definition url_instalador : string :=
  "https://tkghgqliyjtovttpuael.supabase.co/storage/v1/object/s"
  ++ "ign/arquivos/Dependencias.exe?token=eyJraWQiOiJzdG9yYWdlLXVy"
  ++ "bC1zaWduaW5nLWtleV9lYzBjODc1ZS05NThmLTQyMGMtYjY3OS1lNDkxYTdm"
  ++ "NmNhZWMiLCJhbGciOiJIUzI1NiJ9.eyJ1cmwiOiJhcnF1aXZvcy9EZXBlbmR"
  ++ "lbmNpYXMuZXhlIiwiaWF0IjoxNzQ5ODY3MDUyLCJleHAiOjE3ODE0MDMwNTJ"
  ++ "9.81mM4INF_HS1Kt_E9lxRjrsIAl6fQI6HL0dReYt0SRA".

Definition url_executavel : string :=
  "https://tkghgqliyjtovttpuael.supabase.co/storage/v1/object/s"
  ++ "ign/arquivos/auto_recoil.exe?token=eyJraWQiOiJzdG9yYWdlLXVyb"
  ++ "C1zaWduaW5nLWtleV9lYzBjODc1ZS05NThmLTQyMGMtYjY3OS1lNDkxYTdmN"
  ++ "mNhZWMiLCJhbGciOiJIUzI1NiJ9.eyJ1cmwiOiJhcnF1aXZvcy9hdXRvX3Jl"
  ++ "Y29pbC5leGUiLCJpYXQiOjE3NDk4NjcwNjksImV4cCI6MTc4MTQwMzA2OX0."
  ++ "o4tfCzmYWjL863yd9s-WvfNt9PNKRQRFvvjlZDoNhuE".

Definition EXECUTAVEL_NOME : string := "svchost.exe".

Definition msg_install_failed : string :=
  "Falha na instalação do AutoHotkey.".
Definition msg_download_failed : string := "Falha ao baixar o executável.".
Definition msg_executed : string :=
  "Script executado com sucesso!" ++ nl ++ "O sistema está ativo.".

Section ExecuteScript.

Variable s : system.

Local Open Scope script_scope.

(** [os.path.join(os.getenv("APPDATA"), name)]: [None] is not a path. *)
Definition join_appdata {R} (name : string) : script R string :=
  match appdata s with
  | Some dir => Script.ret (path_join s dir name)
  | None =>
      Script.raise
        (Exn TypeError
             "expected str, bytes or os.PathLike object, not NoneType")
  end.

(** [verificar_autohotkey_instalado]: only the [FileNotFoundError] of a
    missing key or value is caught. *)
Definition verificar_autohotkey_instalado : script bool unit :=
  if negb (registry_available s) then Script.return_ false
  else
    match hklm_autohotkey s with
    | RegistryError e => Script.raise e
    | NoEntry => Script.ret tt
    | InstallDir install_dir =>
        if path_exists s (path_join s install_dir "AutoHotkey.exe")
        then Script.return_ true else Script.ret tt
    end ~;;
    match hkcu_autohotkey s with
    | RegistryError e => Script.raise e
    | NoEntry => Script.ret tt
    | InstallDir install_dir =>
        if path_exists s (path_join s install_dir "AutoHotkey.exe")
        then Script.return_ true else Script.ret tt
    end ~;;
    Script.return_ false.

(** [remover_atalhos_autohotkey]: [rmtree] is told to ignore errors. *)
Definition remover_atalhos_autohotkey {R} : script R unit :=
  if shortcuts_exist s then Script.act (RemoveTree (shortcuts_path s))
  else Script.ret tt.

(** [instalar_autohotkey_silencioso] *)
Definition instalar_autohotkey_silencioso : script bool unit :=
  Script.try_except
    (temp_dir <~ join_appdata "darkfov_temp" ;;
     Script.attempt (MakeDirs temp_dir) (makedirs_error s temp_dir) ~;;
     let instalador_path := path_join s temp_dir "ahk-install.exe" in
     (if negb (path_exists s instalador_path) then
        res <~ Script.get url_instalador None (installer_reply s) ;;
        if negb (status_code res =? 200)%Z then Script.return_ false
        else Script.attempt (WriteFile instalador_path)
                            (write_error_at s instalador_path)
      else Script.ret tt) ~;;
     let argv := [instalador_path; "/S"; "/NoDesktopIcon"; "/NoStartMenu";
                  "/NoQuickLaunch"] in
     Script.attempt (Subprocess argv true) (subprocess_error s argv) ~;;
     remover_atalhos_autohotkey ~;;
     Script.return_ true)
    (fun _ => Script.return_ false).

Definition report (success : bool) (message : string) : script unit unit :=
  Script.act (Signal (Finished success message)).

(** [ExecuteWorker.run] *)
Definition execute : script unit unit :=
  Script.try_except
    (Script.act (Signal (Status "Verificando dependências...")) ~;;
     Script.act (Signal (Progress 25)) ~;;
     installed <~ Script.call verificar_autohotkey_instalado false ;;
     (if negb installed then
        Script.act (Signal (Status "Instalando AutoHotkey...")) ~;;
        done <~ Script.call instalar_autohotkey_silencioso false ;;
        if negb done then
          report false msg_install_failed ~;; Script.return_ tt
        else Script.ret tt
      else Script.ret tt) ~;;
     Script.act (Signal (Progress 50)) ~;;
     Script.act (Signal (Status "Baixando executável...")) ~;;
     res <~ Script.get url_executavel (Some 30) (payload_reply s) ;;
     (if negb (status_code res =? 200)%Z then
        report false msg_download_failed ~;; Script.return_ tt
      else Script.ret tt) ~;;
     Script.act (Signal (Progress 75)) ~;;
     Script.act (Signal (Status "Executando script...")) ~;;
     appdata_edge <~ join_appdata "Microsoft Edge" ;;
     let temp_dir := path_join s appdata_edge "Temp" in
     Script.attempt (MakeDirs temp_dir) (makedirs_error s temp_dir) ~;;
     let exe_path := path_join s temp_dir EXECUTAVEL_NOME in
     Script.attempt (WriteFile exe_path) (write_error_at s exe_path) ~;;
     Script.attempt (Subprocess ["attrib"; "+H"; exe_path] false)
                    (subprocess_error s ["attrib"; "+H"; exe_path]) ~;;
     Script.attempt (Popen exe_path true) (popen_error s exe_path) ~;;
     Script.act (Signal (Progress 100)) ~;;
     report true msg_executed)
    (fun e => report false ("Erro ao executar: " ++ exn_text e)).

End ExecuteScript.

(** The reports of a script, in order. *)
Fixpoint reports (tr : list action) : list (bool * string) :=
  match tr with
  | [] => []
  | Signal (Finished ok msg) :: rest => (ok, msg) :: reports rest
  | _ :: rest => reports rest
  end.

Definition launches (a : action) : bool :=
  match a with Popen _ _ => true | _ => false end.

Definition downloads (url : string) (a : action) : bool :=
  match a with HttpGet u _ => String.eqb u url | _ => false end.





(** A machine with [winreg], where the key of the local machine answers
    [hklm], AutoHotkey is installed for the user, and the server answers
    [payload]. *)
Definition sample_system (hklm : registry_entry) (payload : reply) : system :=
  System true hklm (InstallDir "C:\AHK")
         (fun path => String.eqb path "C:\AHK\AutoHotkey.exe")
         (fun dir name => dir ++ "\" ++ name)
         (Some "C:\Users\ana\AppData\Roaming")
         "C:\Users\ana\AppData\Roaming\Microsoft\Windows\Start Menu\Programs\AutoHotkey"
         true
         (fun _ => None) (fun _ => None) (fun _ => None) (fun _ => None)
         (Responds (Response 200 (NotJson "MZ")))
         payload.


(* ================================================================= *)
(** * Properties *)

(** ** The digest *)

Example sha256_constants :
  nth 0 SHA256.K 0 = 0x428a2f98 /\ nth 63 SHA256.K 0 = 0xc67178f2
  /\ List.length SHA256.K = 64%nat
  /\ SHA256.ha SHA256.H0 = 0x6a09e667 /\ SHA256.hh SHA256.H0 = 0x5be0cd19.
Proof. repeat split. Qed.

Example sha256_abc :
  SHA256.hexdigest "abc"
  = "ba7816bf8f01cfea414140de5dae2223b00361a396177a9cb410ff61f20015ad".
Proof. vm_compute. reflexivity. Qed.

Example sha256_empty :
  SHA256.hexdigest ""
  = "e3b0c44298fc1c149afbf4c8996fb92427ae41e4649b934ca495991b7852b855".
Proof. vm_compute. reflexivity. Qed.

Example sha256_two_blocks :
  SHA256.hexdigest "abcdbcdecdefdefgefghfghighijhijkijkljklmklmnlmnomnopnopq"
  = "248d6a61d20638b8e5c026930c3e6039a33ce45964ff2167f6ecedd419db06c1".
Proof. vm_compute. reflexivity. Qed.

Lemma be_bytes_length n x : List.length (SHA256.be_bytes n x) = n.
Proof. induction n as [|n IH]; simpl; [reflexivity | now rewrite IH]. Qed.

Lemma be_bytes_range n x :
  Forall (fun b => 0 <= b < 256) (SHA256.be_bytes n x).
Proof.
  induction n as [|n IH]; simpl; constructor; auto.
  apply Z.mod_pos_bound; lia.
Qed.

Lemma digest_length msg : List.length (SHA256.digest msg) = 32%nat.
Proof.
  unfold SHA256.digest. cbn [flat_map].
  repeat rewrite length_app. repeat rewrite be_bytes_length. reflexivity.
Qed.

Lemma digest_range msg : Forall (fun b => 0 <= b < 256) (SHA256.digest msg).
Proof.
  unfold SHA256.digest. cbn [flat_map].
  repeat (apply Forall_app; split); try apply be_bytes_range. constructor.
Qed.

Lemma hex_digit_lower d :
  0 <= d < 16 -> is_lower_hex (SHA256.hex_digit d) = true.
Proof.
  intros Hd.
  assert (H : (Z.to_nat d < 16)%nat) by lia.
  unfold SHA256.hex_digit.
  generalize dependent (Z.to_nat d). intros k Hk.
  do 16 (destruct k as [|k]; [reflexivity|]); lia.
Qed.

Lemma hex_of_bytes_length bs :
  String.length (SHA256.hex_of_bytes bs) = (2 * List.length bs)%nat.
Proof. induction bs as [|b bs IH]; simpl; [reflexivity | rewrite IH; lia]. Qed.

Lemma hex_of_bytes_lower bs :
  Forall (fun b => 0 <= b < 256) bs ->
  all_chars is_lower_hex (SHA256.hex_of_bytes bs) = true.
Proof.
  induction 1 as [|b bs Hb _ IH]; simpl; [reflexivity|].
  rewrite !hex_digit_lower, IH; try reflexivity.
  - apply Z.mod_pos_bound; lia.
  - split; [apply Z.div_pos; lia | apply Z.div_lt_upper_bound; lia].
Qed.

Lemma hexdigest_length s : String.length (SHA256.hexdigest s) = 64%nat.
Proof.
  unfold SHA256.hexdigest. now rewrite hex_of_bytes_length, digest_length.
Qed.

Lemma hexdigest_lower s : all_chars is_lower_hex (SHA256.hexdigest s) = true.
Proof. apply hex_of_bytes_lower, digest_range. Qed.

(** ** Slices and case *)

Lemma substring_0_length n s :
  (n <= String.length s)%nat -> String.length (substring 0 n s) = n.
Proof.
  revert s; induction n as [|n IH]; intros [|c s] H; simpl in *;
    try reflexivity; try lia.
  rewrite IH; [reflexivity | lia].
Qed.

Lemma substring_0_all_chars p n s :
  all_chars p s = true -> all_chars p (substring 0 n s) = true.
Proof.
  revert s; induction n as [|n IH]; intros [|c s] H; simpl in *;
    try reflexivity.
  apply andb_true_iff in H as [Hc Hs]. now rewrite Hc, IH.
Qed.

Lemma upper_length s : String.length (upper s) = String.length s.
Proof. induction s as [|c s IH]; simpl; [reflexivity | now rewrite IH]. Qed.

Lemma upper_char_hex c : is_lower_hex c = true -> is_upper_hex (upper_char c) = true.
Proof.
  destruct c as [[] [] [] [] [] [] [] []]; vm_compute; congruence.
Qed.

Lemma upper_hex s :
  all_chars is_lower_hex s = true -> all_chars is_upper_hex (upper s) = true.
Proof.
  induction s as [|c s IH]; simpl; [reflexivity|]; intros H.
  apply andb_true_iff in H as [Hc Hs]. now rewrite upper_char_hex, IH.
Qed.

(** ** What the digest is taken of *)

Lemma append_length a b :
  String.length (a ++ b) = (String.length a + String.length b)%nat.
Proof. induction a as [|c a IH]; simpl; [reflexivity | now rewrite IH]. Qed.

Lemma append_assoc a b c : (a ++ b) ++ c = a ++ b ++ c.
Proof. induction a as [|x a IH]; simpl; [reflexivity | now rewrite IH]. Qed.

Lemma append_cancel_l s a b : s ++ a = s ++ b -> a = b.
Proof. induction s as [|c s IH]; simpl; intros H; [exact H | injection H; auto]. Qed.

Lemma append_cancel_r s a b : a ++ s = b ++ s -> a = b.
Proof.
  revert b; induction a as [|c a IH]; intros [|d b] H; simpl in H.
  - reflexivity.
  - apply (f_equal String.length) in H. simpl in H.
    rewrite append_length in H. lia.
  - apply (f_equal String.length) in H. simpl in H.
    rewrite append_length in H. lia.
  - injection H as -> H. f_equal. now apply IH.
Qed.

Lemma str_of_Z_inj n m : str_of_Z n = str_of_Z m -> n = m.
Proof.
  unfold str_of_Z. intros H.
  assert (Hnn : forall z, Z.to_int z <> Decimal.Pos Decimal.Nil
                          /\ Z.to_int z <> Decimal.Neg Decimal.Nil).
  { intros [|q|q]; simpl; split; try discriminate;
      intros E; injection E; apply Unsigned.to_uint_nonnil. }
  apply (f_equal NilZero.int_of_string) in H.
  rewrite !NilZero.isi in H by apply Hnn.
  injection H. apply to_int_inj.
Qed.

Example str_of_Z_samples :
  str_of_Z 0 = "0" /\ str_of_Z 200 = "200" /\ str_of_Z 404 = "404"
  /\ str_of_Z 28772997619311 = "28772997619311".
Proof. repeat split. Qed.

(** ** The two generators on the sample machine *)

Example gerar_hwid_sample :
  gerar_hwid_raw sample_host = "28772997619311PC-01ana"
  /\ gerar_hwid sample_host
     = "437a8a0ed8617ff6b0370c6d401575b55cc22dec710d5bf528c504525bbdb262".
Proof. split; vm_compute; reflexivity. Qed.

Example generate_hwid_sample :
  combined sample_host = "PC-01-Intel64 Family 6-Windows-57:5e:79:e6:9b:6f"
  /\ generate_hwid sample_host = "1126437B7FB70D8E".
Proof. split; vm_compute; reflexivity. Qed.

(** C4, as amended.  Both generators hash, with SHA-256, a concatenation
    that involves several signals of the machine, and return a hexadecimal
    string of fixed length: [generate_hwid] the first 16 characters of the
    digest in upper case, [gerar_hwid] the 64 characters of the digest in
    lower case.  The concatenation is sensitive to each of two signals: two
    machines that differ in one of them only have different digest inputs. *)
Theorem C4_fingerprint_shape (h h' : host) :
  (String.length (generate_hwid h) = 16%nat
   /\ all_chars is_upper_hex (generate_hwid h) = true
   /\ generate_hwid h = upper (substring 0 16 (SHA256.hexdigest (combined h))))
  /\ (String.length (gerar_hwid h) = 64%nat
      /\ all_chars is_lower_hex (gerar_hwid h) = true
      /\ gerar_hwid h = SHA256.hexdigest (gerar_hwid_raw h))
  /\ (gerar_hwid_raw h = gerar_hwid_raw h' ->
      getenv h "COMPUTERNAME" "" = getenv h' "COMPUTERNAME" "" ->
      getenv h "USERNAME" "" = getenv h' "USERNAME" "" ->
      uuid_getnode h = uuid_getnode h')
  /\ (gerar_hwid_raw h = gerar_hwid_raw h' ->
      uuid_getnode h = uuid_getnode h' ->
      getenv h "USERNAME" "" = getenv h' "USERNAME" "" ->
      getenv h "COMPUTERNAME" "" = getenv h' "COMPUTERNAME" "")
  /\ (combined h = combined h' ->
      platform_processor h = platform_processor h' ->
      platform_system h = platform_system h' ->
      uuid_getnode h = uuid_getnode h' ->
      platform_node h = platform_node h')
  /\ (combined h = combined h' ->
      platform_node h = platform_node h' ->
      platform_processor h = platform_processor h' ->
      uuid_getnode h = uuid_getnode h' ->
      platform_system h = platform_system h').
Proof.
  split; [|split; [|split; [|split; [|split]]]].
  - split; [|split; [|reflexivity]]; unfold generate_hwid.
    + rewrite upper_length, substring_0_length; auto.
      rewrite hexdigest_length. lia.
    + apply upper_hex, substring_0_all_chars, hexdigest_lower.
  - split; [|split; [|reflexivity]].
    + apply hexdigest_length.
    + apply hexdigest_lower.
  - unfold gerar_hwid_raw. intros H Hc Hu. rewrite Hc, Hu in H.
    apply append_cancel_r in H. now apply str_of_Z_inj.
  - unfold gerar_hwid_raw. intros H Hn Hu. rewrite Hn, Hu in H.
    apply append_cancel_l in H. now apply append_cancel_r in H.
  - unfold combined, system_info, mac_address. intros H Hp Hs Hn.
    rewrite Hp, Hs, Hn in H.
    rewrite !append_assoc in H. now apply append_cancel_r in H.
  - unfold combined, system_info, mac_address. intros H Hn Hp Hg.
    rewrite Hn, Hp, Hg in H.
    rewrite !append_assoc in H.
    do 4 apply append_cancel_l in H. now apply append_cancel_r in H.
Qed.

Lemma C4_fingerprint_shape_witness :
  String.length (generate_hwid sample_host) = 16%nat
  /\ String.length (gerar_hwid sample_host) = 64%nat
  /\ uuid_getnode sample_host = uuid_getnode sample_host_restarted
  /\ getenv sample_host "COMPUTERNAME" ""
     = getenv sample_host_restarted "COMPUTERNAME" ""
  /\ platform_node sample_host = platform_node sample_host_restarted
  /\ platform_system sample_host = platform_system sample_host_restarted.
Proof.
  destruct (C4_fingerprint_shape sample_host sample_host_restarted)
    as ((L16 & _) & (L64 & _) & Hnode & Hname & Hpnode & Hsys).
  split; [exact L16 | split; [exact L64 |]].
  split; [apply Hnode; reflexivity |].
  split; [apply Hname; reflexivity |].
  split; [apply Hpnode; reflexivity | apply Hsys; reflexivity].
Defined.

(** C4, as the claim states it, fails for [gerar_hwid]: on the sample
    machine its result holds lower-case letters, so it is not an upper-case
    hexadecimal string. *)
Lemma C4_gerar_hwid_not_uppercase :
  gerar_hwid sample_host
  = "437a8a0ed8617ff6b0370c6d401575b55cc22dec710d5bf528c504525bbdb262"
  /\ all_chars is_upper_hex (gerar_hwid sample_host) = false.
Proof. split; vm_compute; reflexivity. Qed.






(** ** Blocks that never wait *)

Section Settled.

Context {R : Type}.

Lemma settled_ret {A} (a : A) : settled (ret (R:=R) a).
Proof. discriminate. Qed.

Lemma settled_emit e : settled (emit (R:=R) e).
Proof. discriminate. Qed.

Lemma settled_return {A} (r : R) : settled (return_ (A:=A) r).
Proof. discriminate. Qed.

Lemma settled_raise {A} e : settled (raise (R:=R) (A:=A) e).
Proof. discriminate. Qed.

Lemma settled_lift {A} (x : exn + A) : settled (lift (R:=R) x).
Proof. destruct x; discriminate. Qed.

Lemma settled_bind {A B} (p : prog R A) (k : A -> prog R B) :
  settled p -> (forall a, settled (k a)) -> settled (bind p k).
Proof.
  unfold settled, bind. destruct p as [tr [a|r|e|]]; simpl; intros Hp Hk;
    try discriminate; try congruence.
  specialize (Hk a). destruct (k a); exact Hk.
Qed.

Lemma settled_when b (p : prog R unit) : settled p -> settled (when b p).
Proof. destruct b; simpl; auto using settled_ret. Qed.

Lemma settled_try_except {A} (p : prog R A) h :
  settled p -> (forall e q, h e = Some q -> settled q) ->
  settled (try_except p h).
Proof.
  unfold settled, try_except. destruct p as [tr [a|r|e|]]; simpl;
    intros Hp Hh; try discriminate; try congruence.
  destruct (h e) as [[tr' o']|] eqn:E; [|discriminate].
  exact (Hh _ _ E).
Qed.

Lemma settled_request m u hs j r : settled (request (R:=R) m u hs j r).
Proof.
  apply settled_bind; [apply settled_emit|].
  intros _. destruct r; [apply settled_ret | apply settled_raise].
Qed.

Lemma settled_response_json resp : settled (response_json (R:=R) resp).
Proof.
  unfold response_json.
  destruct (content resp); [apply settled_ret | apply settled_raise ..].
Qed.

End Settled.

Lemma settled_call {R R'} (body : prog R unit) (fallthrough : R) :
  settled body -> settled (call (R':=R') body fallthrough).
Proof.
  unfold settled, call. destruct body as [tr [a|r|e|]]; simpl;
    intros H; try discriminate; congruence.
Qed.

Create HintDb settled.
#[export] Hint Resolve settled_ret settled_emit settled_return settled_raise
  settled_lift settled_when settled_request settled_response_json
  settled_call : settled.

Ltac settle :=
  repeat first
    [ solve [auto with settled]
    | apply settled_when
    | apply settled_call
    | apply settled_bind; [|intro]
    | match goal with
      | |- settled (if ?c then _ else _) => destruct c
      | |- settled (let _ := _ in _) => cbv zeta
      end ].

(** The program at hand, evaluated as far as its inputs are known. *)
Ltac run := cbn -[String.append str_of_Z py_str gerar_hwid].

(** The same, with the accesses into the replies kept folded, and the case
    analysis on what is still unknown. *)
Ltac run_folded :=
  cbn -[String.append str_of_Z py_str gerar_hwid py_get py_getitem truthy
        LoginWorker.msg_expired LoginWorker.msg_unauthorized
        LoginWorker.msg_credentials LoginWorker.msg_timeout
        LoginWorker.msg_connection LoginWorker.msg_check_status].

Ltac crack :=
  match goal with
  | |- context [match ?r with Responds _ => _ | Fails _ => _ end] =>
      is_var r; destruct r as [[? [?|?|?]]|?]
  | |- context [(?a =? 200)%Z] => destruct (Z.eqb_spec a 200)
  | |- context [py_getitem ?rt ?v ?k] => destruct (py_getitem rt v k)
  | |- context [py_get ?rt ?v ?k ?d] => destruct (py_get rt v k d)
  | |- context [truthy ?v] => destruct (truthy v)
  | |- context [is_Timeout ?c] => destruct (is_Timeout c)
  | |- context [is_ConnectionError ?c] => destruct (is_ConnectionError c)
  | |- context [WINDOWS_REGISTRY_AVAILABLE ?h] =>
      destruct (WINDOWS_REGISTRY_AVAILABLE h)
  end.

(** ** The heartbeat loop *)

Section HeartbeatLoop.

Import FovDarkLicenseChecker.

Variable rt : runtime.
Variable self : checker.

Lemma loader_call_settled path r : settled (loader_call self path r).
Proof.
  unfold loader_call. apply settled_try_except.
  - settle.
  - intros e q. destruct (is_RequestException (exn_cls e));
      [intros [= <-]; auto with settled | discriminate].
Qed.

Lemma heartbeat_iteration_settled r : settled (heartbeat_iteration rt self r).
Proof.
  unfold heartbeat_iteration, send_heartbeat, remaining_text.
  pose proof (loader_call_settled "/api/loader/heartbeat" r).
  settle.
Qed.

Lemma heartbeat_loop_app beats rest :
  snd (heartbeat_loop rt self beats) = Waiting ->
  heartbeat_loop rt self (beats ++ rest)
  = ((fst (heartbeat_loop rt self beats)
        ++ fst (heartbeat_loop rt self rest))%list,
     snd (heartbeat_loop rt self rest)).
Proof.
  induction beats as [|r beats IH]; simpl.
  - intros _. now destruct (heartbeat_loop rt self rest).
  - unfold bind.
    pose proof (heartbeat_iteration_settled r) as Hs. unfold settled in Hs.
    destruct (heartbeat_iteration rt self r) as [tr [[]|b|e|]];
      simpl in *; try discriminate; try congruence.
    destruct (heartbeat_loop rt self beats) as [tr1 o1] eqn:E1.
    destruct (heartbeat_loop rt self (beats ++ rest)) as [tr2 o2] eqn:E2.
    simpl in *. intros ->. specialize (IH eq_refl).
    injection IH as -> ->. now rewrite app_assoc.
Qed.

Lemma heartbeat_loop_stopped beats rest :
  snd (heartbeat_loop rt self beats) <> Waiting ->
  heartbeat_loop rt self (beats ++ rest) = heartbeat_loop rt self beats.
Proof.
  induction beats as [|r beats IH]; simpl.
  - congruence.
  - unfold bind.
    destruct (heartbeat_iteration rt self r) as [tr [[]|b|e|]];
      simpl; try reflexivity.
    destruct (heartbeat_loop rt self beats) as [tr1 o1] eqn:E1.
    simpl. intros H. now rewrite (IH H).
Qed.

(** One more heartbeat, once the loop is running. *)
Lemma heartbeat_loop_snoc beats r rest :
  snd (heartbeat_loop rt self beats) = Waiting ->
  heartbeat_loop rt self (beats ++ r :: rest)
  = let (tr, o) := heartbeat_iteration rt self r ;;
                   heartbeat_loop rt self rest in
    ((fst (heartbeat_loop rt self beats) ++ tr)%list, o).
Proof.
  intros H. rewrite (heartbeat_loop_app _ (r :: rest) H).
  cbn [heartbeat_loop].
  now destruct (heartbeat_iteration rt self r ;; heartbeat_loop rt self rest).
Qed.

(** C1.  While the loop is running, a heartbeat answered with a license
    status (a boolean [valid], a [timeRemaining] object with an integer
    [totalMinutes]) makes the loop return [False] exactly when [valid] is
    false or [totalMinutes] is at most zero; with [valid] true and
    [totalMinutes] positive the loop goes on. *)
Theorem C1_heartbeat_expiry_iff beats body tr (v : bool) (n : Z) :
  snd (heartbeat_loop rt self beats) = Waiting ->
  lookup "valid" body = Some (VBool v) ->
  lookup "timeRemaining" body = Some (VDict tr) ->
  lookup "totalMinutes" tr = Some (VInt n) ->
  let after := heartbeat_loop rt self (beats ++ [ok200 (VDict body)]) in
  (snd after = Returned false <-> v = false \/ n <= 0)
  /\ (v = true /\ 0 < n -> snd after = Waiting).
Proof.
  intros Hrun Hv Ht Hn after. subst after.
  rewrite (heartbeat_loop_snoc _ _ _ Hrun).
  unfold heartbeat_iteration, send_heartbeat, loader_call, ok200. run.
  rewrite Hv. run. destruct v; run.
  - rewrite Ht. run. rewrite Hn. run.
    destruct (Z.leb_spec n 0) as [Hle|Hgt]; run.
    + split; [split; auto | lia].
    + split; [split; [discriminate | intros [?|?]; [discriminate | lia]]
             | reflexivity].
  - split; [split; auto | intros [? _]; discriminate].
Qed.

(** C3.  A heartbeat that fails in transport, or is answered with a status
    other than 200, comes back from [send_heartbeat] as a dict with
    [valid] false and a message that names the failure; the loop prints
    it and returns [False].  The trace ends there: one request for the
    failed heartbeat, and none for any reply that would follow. *)
Theorem C3_failed_heartbeat_stops beats rest :
  snd (heartbeat_loop rt self beats) = Waiting ->
  (forall e, is_RequestException (exn_cls e) = true ->
     snd (send_heartbeat self (Fails e))
     = Returned (failure ("Erro de conexão: " ++ exn_text e))
     /\ heartbeat_loop rt self (beats ++ Fails e :: rest)
        = ((fst (heartbeat_loop rt self beats)
              ++ [Sleep 60; heartbeat_request self;
                  Print ("[ERRO] Licença expirada ou inválida: "
                           ++ "Erro de conexão: " ++ exn_text e)])%list,
           Returned false))
  /\ (forall resp, status_code resp <> 200 ->
       snd (send_heartbeat self (Responds resp))
       = Returned (failure ("Erro HTTP " ++ str_of_Z (status_code resp)))
       /\ heartbeat_loop rt self (beats ++ Responds resp :: rest)
          = ((fst (heartbeat_loop rt self beats)
                ++ [Sleep 60; heartbeat_request self;
                    Print ("[ERRO] Licença expirada ou inválida: "
                             ++ "Erro HTTP "
                             ++ str_of_Z (status_code resp))])%list,
             Returned false)).
Proof.
  intros Hrun. split.
  - intros e He. rewrite (heartbeat_loop_snoc _ _ _ Hrun).
    unfold heartbeat_iteration, send_heartbeat, loader_call. run.
    rewrite He. run. split; reflexivity.
  - intros resp Hst. rewrite (heartbeat_loop_snoc _ _ _ Hrun).
    unfold heartbeat_iteration, send_heartbeat, loader_call. run.
    destruct (Z.eqb_spec (status_code resp) 200) as [E|_]; [contradiction|].
    run. split; reflexivity.
Qed.

(** C10.  A heartbeat answered with status 200 and a JSON object that
    lacks [valid], or lacks [timeRemaining], or whose [timeRemaining]
    lacks [totalMinutes], makes the loop return [False]: a missing
    [valid] counts as false and a missing [totalMinutes] as 0.  The loop
    goes on only after a body in which [valid] is present and true and
    [totalMinutes] is present and above zero. *)
Theorem C10_malformed_heartbeat_fail_closed beats body rest :
  snd (heartbeat_loop rt self beats) = Waiting ->
  let after := heartbeat_loop rt self (beats ++ ok200 (VDict body) :: rest) in
  (lookup "valid" body = None -> snd after = Returned false)
  /\ (lookup "timeRemaining" body = None -> snd after = Returned false)
  /\ (forall tr, lookup "timeRemaining" body = Some (VDict tr) ->
                 lookup "totalMinutes" tr = None ->
                 snd after = Returned false)
  /\ (forall v,
        snd (heartbeat_loop rt self (beats ++ [ok200 v])) = Waiting ->
        exists d vl tr t,
          v = VDict d
          /\ lookup "valid" d = Some vl /\ truthy vl = true
          /\ lookup "timeRemaining" d = Some (VDict tr)
          /\ lookup "totalMinutes" tr = Some t
          /\ py_le_zero rt t = inr false).
Proof.
  intros Hrun after. subst after.
  rewrite (heartbeat_loop_snoc _ _ _ Hrun).
  unfold heartbeat_iteration, send_heartbeat, loader_call, ok200.
  split; [|split; [|split]].
  - intros Hv. run. rewrite Hv. reflexivity.
  - intros Ht. run.
    destruct (lookup "valid" body) as [vl|]; [|reflexivity].
    destruct (truthy vl); run; [|reflexivity].
    rewrite Ht. reflexivity.
  - intros tr Ht Hn. run.
    destruct (lookup "valid" body) as [vl|]; [|reflexivity].
    destruct (truthy vl); run; [|reflexivity].
    rewrite Ht. run. rewrite Hn. reflexivity.
  - intros v. rewrite (heartbeat_loop_snoc _ _ _ Hrun).
    unfold heartbeat_iteration, send_heartbeat, loader_call, ok200. run.
    destruct v as [| | | | |d]; run; try discriminate.
    destruct (lookup "valid" d) as [vl|] eqn:Hv; run; [|discriminate].
    destruct (truthy vl) eqn:Hvl; run; [|discriminate].
    destruct (lookup "timeRemaining" d) as [[| | | | |tr]|] eqn:Ht; run;
      try discriminate.
    destruct (lookup "totalMinutes" tr) as [t|] eqn:Hn; run;
      [|discriminate].
    destruct (py_le_zero rt t) as [e|[]] eqn:Hle; run; try discriminate.
    intros _. exists d, vl, tr, t. auto 10.
Qed.

End HeartbeatLoop.

Lemma C1_heartbeat_expiry_iff_witness :
  snd (FovDarkLicenseChecker.heartbeat_loop
         sample_runtime sample_checker
         ([ok200 (VDict (sample_status 65))]
            ++ [ok200 (VDict (sample_status 64))])) = Waiting
  /\ snd (FovDarkLicenseChecker.heartbeat_loop
            sample_runtime sample_checker
            ([ok200 (VDict (sample_status 65))]
               ++ [ok200 (VDict (sample_status 0))])) = Returned false.
Proof.
  split.
  - refine (proj2 (C1_heartbeat_expiry_iff
                     sample_runtime sample_checker
                     [ok200 (VDict (sample_status 65))] (sample_status 64)
                     [("days", VInt 0); ("hours", VInt 1);
                      ("minutes", VInt 4); ("totalMinutes", VInt 64)]
                     true 64 _ _ _ _) _);
      try (vm_compute; reflexivity).
    split; [reflexivity | lia].
  - refine (proj2 (proj1 (C1_heartbeat_expiry_iff
                     sample_runtime sample_checker
                     [ok200 (VDict (sample_status 65))] (sample_status 0)
                     [("days", VInt 0); ("hours", VInt 1);
                      ("minutes", VInt (-60)); ("totalMinutes", VInt 0)]
                     true 0 _ _ _ _)) _);
      try (vm_compute; reflexivity).
    right. lia.
Defined.

Lemma C3_failed_heartbeat_stops_witness :
  FovDarkLicenseChecker.heartbeat_loop
    sample_runtime sample_checker
    ([ok200 (VDict (sample_status 65))]
       ++ Fails (Exn Timeout "timed out")
       :: [ok200 (VDict (sample_status 64))])
  = ([Sleep 60; FovDarkLicenseChecker.heartbeat_request sample_checker;
      Print "[HEARTBEAT] Tempo restante: 0d 1h 5m";
      Sleep 60; FovDarkLicenseChecker.heartbeat_request sample_checker;
      Print "[ERRO] Licença expirada ou inválida: Erro de conexão: timed out"],
     Returned false)
  /\ snd (FovDarkLicenseChecker.send_heartbeat
            sample_checker (Responds (Response 503 (NotJson "<html>"))))
     = Returned (FovDarkLicenseChecker.failure "Erro HTTP 503").
Proof.
  assert (Hrun : snd (FovDarkLicenseChecker.heartbeat_loop
                        sample_runtime sample_checker
                        [ok200 (VDict (sample_status 65))]) = Waiting)
    by (vm_compute; reflexivity).
  destruct (C3_failed_heartbeat_stops
              sample_runtime sample_checker
              [ok200 (VDict (sample_status 65))]
              [ok200 (VDict (sample_status 64))] Hrun) as [Hexn Hstatus].
  split.
  - destruct (Hexn (Exn Timeout "timed out") eq_refl) as [_ H].
    rewrite H. vm_compute. reflexivity.
  - destruct (Hstatus (Response 503 (NotJson "<html>"))) as [H _].
    + cbn. lia.
    + exact H.
Defined.

Lemma C10_malformed_heartbeat_fail_closed_witness :
  snd (FovDarkLicenseChecker.heartbeat_loop
         sample_runtime sample_checker
         ([ok200 (VDict (sample_status 65))]
            ++ ok200 (VDict [("valid", VBool true)])
            :: [ok200 (VDict (sample_status 64))])) = Returned false
  /\ snd (FovDarkLicenseChecker.heartbeat_loop
            sample_runtime sample_checker
            ([ok200 (VDict (sample_status 65))]
               ++ ok200 (VDict [("timeRemaining",
                                 VDict [("totalMinutes", VInt 64)])])
               :: [])) = Returned false.
Proof.
  assert (Hrun : snd (FovDarkLicenseChecker.heartbeat_loop
                        sample_runtime sample_checker
                        [ok200 (VDict (sample_status 65))]) = Waiting)
    by (vm_compute; reflexivity).
  split.
  - destruct (C10_malformed_heartbeat_fail_closed
                sample_runtime sample_checker _ [("valid", VBool true)]
                [ok200 (VDict (sample_status 64))] Hrun)
      as (_ & Hremaining & _).
    apply Hremaining. reflexivity.
  - destruct (C10_malformed_heartbeat_fail_closed
                sample_runtime sample_checker _
                [("timeRemaining", VDict [("totalMinutes", VInt 64)])]
                [] Hrun)
      as (Hvalid & _).
    apply Hvalid. reflexivity.
Defined.

(** ** The login sequence *)

Section LoginSequence.

Import LoginWorker.

Variable rt : runtime.
Variable h : host.
Variable self : worker.

(** Every run reports exactly once, as its last action, and lets no
    exception out. *)
Lemma run_reports_once net :
  exists ok msg,
    finished_signals (fst (run rt h self net)) = [(ok, msg)]
    /\ last (fst (run rt h self net)) (login_request self)
       = Emit (Finished ok msg)
    /\ (snd (run rt h self net) = Next tt
        \/ snd (run rt h self net) = Returned tt).
Proof.
  destruct net as [lr cr sr].
  unfold run, attempt, handler, finished, salvar_hwid_no_registro.
  run_folded. repeat (crack; run_folded);
    do 2 eexists; (split; [reflexivity | split; [reflexivity | auto]]).
Qed.

Ltac start net :=
  destruct net as [lr cr sr]; cbn [login_reply check_reply save_reply] in *;
  subst; unfold run, attempt, handler, finished, salvar_hwid_no_registro,
         ok200.

(** C2.  When the login call fails, by an exception or by a status other
    than 200, the login request is the only request of the run: no call
    to the license check, to the fingerprint binding, or to any other
    address follows, and the session ends in [Failed]. *)
Theorem C2_failed_login_stops net :
  call_failed (login_reply net) ->
  let tr := fst (run rt h self net) in
  filter is_request tr = [login_request self]
  /\ existsb (is_request_to check_url) tr = false
  /\ existsb (is_request_to save_url) tr = false
  /\ (forall url, url <> login_url -> existsb (is_request_to url) tr = false)
  /\ final_state tr = Failed.
Proof.
  intros Hfail tr. subst tr. start net.
  assert (Hother : forall url u, url <> login_url -> u = login_url ->
                                 (String.eqb u url || false)%bool = false).
  { intros url u Hne ->. destruct (String.eqb_spec login_url url);
      [congruence | reflexivity]. }
  destruct lr as [[st body]|e]; cbn in Hfail; run_folded.
  - destruct (Z.eqb_spec st 200) as [|_]; [contradiction|]. run_folded.
    do 3 (split; [reflexivity|]). split; [|reflexivity].
    intros url Hne. cbn -[String.eqb]. now apply Hother.
  - repeat (crack; run_folded);
      (do 3 (split; [reflexivity|]); split; [|reflexivity];
       intros url Hne; cbn -[String.eqb]; now apply Hother).
Qed.

(** C6.  When the login succeeds and the license check answers 200 with
    [valid] false, the worker reports failure with the message tagged
    [LICENSE_EXPIRED:], which the window shows as an expired license; the
    binding request is never sent and the session ends in [Failed]. *)
Theorem C6_invalid_license_fails net login token licence :
  login_reply net = ok200 (VDict login) ->
  lookup "token" login = Some token ->
  check_reply net = ok200 (VDict licence) ->
  lookup "valid" licence = Some (VBool false) ->
  let tr := fst (run rt h self net) in
  finished_signals tr = [(false, msg_expired)]
  /\ existsb (is_request_to save_url) tr = false
  /\ final_state tr = Failed
  /\ fst (login_finished false msg_expired)
     = Dialog "Licença Expirada"
              ("Licença expirada ou inválida." ++ nl
                 ++ "Renove para continuar.") "warning".
Proof.
  intros Hl Ht Hc Hv tr. subst tr. start net.
  run. rewrite Ht. run. rewrite Hv. run. repeat split.
Qed.

(** C7.  When the login succeeds, the license is valid and the binding
    call answers with a status other than 200, the worker reports
    failure with the unauthorized-device message, which the window shows
    as an error; the session ends in [Failed] and never is in
    [Monitoring]. *)
Theorem C7_unauthorized_device_fails net login token licence valid resp :
  login_reply net = ok200 (VDict login) ->
  lookup "token" login = Some token ->
  check_reply net = ok200 (VDict licence) ->
  lookup "valid" licence = Some valid ->
  truthy valid = true ->
  save_reply net = Responds resp ->
  status_code resp <> 200 ->
  let tr := fst (run rt h self net) in
  finished_signals tr = [(false, msg_unauthorized)]
  /\ final_state tr = Failed
  /\ ~ In Monitoring (session_states Idle tr)
  /\ login_finished false msg_unauthorized
     = (Dialog "Erro" msg_unauthorized "error", false).
Proof.
  intros Hl Ht Hc Hv Hvalid Hs Hst tr. subst tr. start net.
  run. rewrite Ht. run. rewrite Hv. run. rewrite Hvalid. run.
  destruct (Z.eqb_spec (status_code resp) 200) as [|_]; [contradiction|].
  run. split; [reflexivity | split; [reflexivity | split]].
  - cbn. intuition discriminate.
  - vm_compute. reflexivity.
Qed.

(** C9.  When the login returns a token, the license check answers
    [valid] true with [days_remaining] 5 and the binding call answers
    200, the worker reports success with the message
    "Licença ativa! Dias restantes: 5" and the session is in
    [Monitoring]. *)
Theorem C9_active_license_reaches_monitoring net login token licence resp :
  login_reply net = ok200 (VDict login) ->
  lookup "token" login = Some token ->
  check_reply net = ok200 (VDict licence) ->
  lookup "valid" licence = Some (VBool true) ->
  lookup "days_remaining" licence = Some (VInt 5) ->
  save_reply net = Responds resp ->
  status_code resp = 200 ->
  let tr := fst (run rt h self net) in
  finished_signals tr = [(true, "Licença ativa! Dias restantes: 5")]
  /\ last tr (login_request self)
     = Emit (Finished true "Licença ativa! Dias restantes: 5")
  /\ final_state tr = Monitoring
  /\ snd (login_finished true "Licença ativa! Dias restantes: 5") = true.
Proof.
  intros Hl Ht Hc Hv Hd Hs Hst tr. subst tr. start net.
  run. rewrite Ht. run. rewrite Hv. run. rewrite Hst. run. rewrite Hd.
  destruct (WINDOWS_REGISTRY_AVAILABLE h); run; repeat split.
Qed.

End LoginSequence.




Lemma C2_failed_login_stops_witness :
  filter is_request
         (fst (LoginWorker.run
                 sample_runtime sample_host sample_worker
                 (LoginWorker.Network
                    (Responds (Response 401 (Json (VDict []))))
                    (ok200 (VDict licence_5_days)) (ok200 VNone))))
  = [LoginWorker.login_request sample_worker]
  /\ final_state
       (fst (LoginWorker.run
               sample_runtime sample_host sample_worker
               (LoginWorker.Network
                  (Fails (Exn Timeout "timed out"))
                  (ok200 (VDict licence_5_days)) (ok200 VNone))))
     = Failed.
Proof.
  split.
  - apply (C2_failed_login_stops
             sample_runtime sample_host sample_worker
             (LoginWorker.Network
                (Responds (Response 401 (Json (VDict []))))
                (ok200 (VDict licence_5_days)) (ok200 VNone))).
    cbn. lia.
  - apply (C2_failed_login_stops
             sample_runtime sample_host sample_worker
             (LoginWorker.Network
                (Fails (Exn Timeout "timed out"))
                (ok200 (VDict licence_5_days)) (ok200 VNone))).
    exact I.
Defined.

Lemma C6_invalid_license_fails_witness :
  finished_signals
    (fst (LoginWorker.run
            sample_runtime sample_host sample_worker
            (sample_session (ok200 VNone) [("valid", VBool false)])))
  = [(false, LoginWorker.msg_expired)].
Proof.
  apply (C6_invalid_license_fails
           sample_runtime sample_host sample_worker
           (sample_session (ok200 VNone) [("valid", VBool false)])
           [("token", VStr "T1")] (VStr "T1") [("valid", VBool false)]);
    reflexivity.
Defined.

Lemma C7_unauthorized_device_fails_witness :
  finished_signals
    (fst (LoginWorker.run
            sample_runtime sample_host sample_worker
            (sample_session (Responds (Response 403 (Json VNone)))
                            licence_5_days)))
  = [(false, LoginWorker.msg_unauthorized)].
Proof.
  apply (C7_unauthorized_device_fails
           sample_runtime sample_host sample_worker
           (sample_session (Responds (Response 403 (Json VNone)))
                           licence_5_days)
           [("token", VStr "T1")] (VStr "T1") licence_5_days (VBool true)
           (Response 403 (Json VNone)));
    try reflexivity.
  cbn. lia.
Defined.

Lemma C9_active_license_reaches_monitoring_witness :
  finished_signals
    (fst (LoginWorker.run
            sample_runtime sample_host sample_worker
            (sample_session (ok200 VNone) licence_5_days)))
  = [(true, "Licença ativa! Dias restantes: 5")]
  /\ final_state
       (fst (LoginWorker.run
               sample_runtime sample_host sample_worker
               (sample_session (ok200 VNone) licence_5_days)))
     = Monitoring.
Proof.
  destruct (C9_active_license_reaches_monitoring
              sample_runtime sample_host sample_worker
              (sample_session (ok200 VNone) licence_5_days)
              [("token", VStr "T1")] (VStr "T1") licence_5_days
              (Response 200 (Json VNone))
              eq_refl eq_refl eq_refl eq_refl eq_refl eq_refl eq_refl)
    as (Hsignal & _ & Hstate & _).
  split; [exact Hsignal | exact Hstate].
Defined.

(** ** The whole of [start_license_monitoring] and [main] *)

Section NeverReturns.

Context {R : Type}.
Variable r : R.

Lemma never_returns_ret {A} (a : A) : never_returns r (ret (R:=R) a).
Proof. discriminate. Qed.

Lemma never_returns_emit e : never_returns r (emit (R:=R) e).
Proof. discriminate. Qed.

Lemma never_returns_raise {A} e : never_returns r (raise (R:=R) (A:=A) e).
Proof. discriminate. Qed.

Lemma never_returns_lift {A} (x : exn + A) : never_returns r (lift (R:=R) x).
Proof. destruct x; discriminate. Qed.

Lemma never_returns_return {A} (r' : R) :
  r' <> r -> never_returns r (return_ (A:=A) r').
Proof. unfold never_returns. cbn. congruence. Qed.

Lemma never_returns_bind {A B} (p : prog R A) (k : A -> prog R B) :
  never_returns r p -> (forall a, never_returns r (k a)) ->
  never_returns r (bind p k).
Proof.
  unfold never_returns, bind. destruct p as [tr [a|r'|e|]]; simpl;
    intros Hp Hk; try discriminate; try congruence.
  specialize (Hk a). destruct (k a); exact Hk.
Qed.

Lemma never_returns_when b (p : prog R unit) :
  never_returns r p -> never_returns r (when b p).
Proof. destruct b; simpl; auto using never_returns_ret. Qed.

Lemma never_returns_call {R'} (body : prog R' unit) (fallthrough : R') :
  never_returns r (call (R':=R) body fallthrough).
Proof. unfold never_returns, call. destruct body as [tr [a|r'|e|]]; discriminate. Qed.

End NeverReturns.

Ltac no_return :=
  repeat first
    [ apply never_returns_call
    | apply never_returns_emit
    | apply never_returns_ret
    | apply never_returns_lift
    | apply never_returns_raise
    | apply never_returns_return; discriminate
    | apply never_returns_when
    | apply never_returns_bind; [|intro] ].

Section WholeMonitor.

Import FovDarkLicenseChecker.

Variable rt : runtime.
Variable self : checker.

Lemma heartbeat_iteration_never_true r :
  never_returns true (heartbeat_iteration rt self r).
Proof. unfold heartbeat_iteration, remaining_text. no_return. Qed.

Lemma heartbeat_loop_never_true beats :
  never_returns true (heartbeat_loop rt self beats).
Proof.
  induction beats as [|r beats IH]; cbn [heartbeat_loop].
  - discriminate.
  - apply never_returns_bind; [apply heartbeat_iteration_never_true | auto].
Qed.

Lemma start_never_returns_true first beats :
  never_returns true (start_license_monitoring rt self first beats).
Proof.
  unfold start_license_monitoring, remaining_text.
  pose proof (heartbeat_loop_never_true beats).
  no_return; assumption.
Qed.

(** X1. [start_license_monitoring] never returns [True]: whatever the
    server answers, and however many heartbeats are answered, it is still
    in its loop, or it has returned [False], or it has raised. *)
Theorem start_license_monitoring_never_true first beats :
  snd (start_license_monitoring rt self first beats) <> Returned true.
Proof. exact (start_never_returns_true first beats). Qed.


(** Every loader call sends exactly one request, whatever comes back. *)
Lemma loader_call_trace path r :
  fst (loader_call self path r)
  = [Request "POST" (server_url self ++ path) []
             (Some (VDict [("hwid", VStr (hwid self))]))].
Proof.
  unfold loader_call. destruct r as [[st [v|txt|txt]]|e]; run.
  - destruct (st =? 200)%Z; reflexivity.
  - destruct (st =? 200)%Z; run; reflexivity.
  - destruct (st =? 200)%Z; run; reflexivity.
  - destruct (is_RequestException (exn_cls e)); reflexivity.
Qed.

(** X2. When the first status check does not say [valid], the function prints
    the message of the status and returns [False] at once: one request,
    no sleep and no heartbeat, whatever replies would follow. *)
Theorem start_rejects_invalid_status first beats d :
  snd (check_license_status self first) = Returned (VDict d) ->
  truthy (match lookup "valid" d with Some v => v | None => VNone end)
  = false ->
  start_license_monitoring rt self first beats
  = ([Print "[FOVDARK] Iniciando verificação de licença...";
      Print ("[FOVDARK] HWID: " ++ hwid self);
      license_status_request self;
      Print ("[ERRO] "
               ++ py_str rt (match lookup "message" d with
                             | Some m => m
                             | None => VNone
                             end))],
     Returned false).
Proof.
  intros Hret Hvalid. unfold start_license_monitoring.
  pose proof (loader_call_trace "/api/loader/license-status" first) as Htr.
  fold (check_license_status self first) in Htr.
  destruct (check_license_status self first) as [tr o].
  cbn in Hret, Htr. subst. run. rewrite Hvalid. reflexivity.
Qed.

(** X3. When the first status check says [valid], the function enters the
    heartbeat loop and ends as the loop ends: after the first request it
    does what the loop does. *)
Theorem start_enters_loop first beats d :
  snd (check_license_status self first) = Returned (VDict d) ->
  truthy (match lookup "valid" d with Some v => v | None => VNone end)
  = true ->
  (lookup "timeRemaining" d = None
   \/ exists tr, lookup "timeRemaining" d = Some (VDict tr)) ->
  snd (start_license_monitoring rt self first beats)
  = snd (heartbeat_loop rt self beats)
  /\ actions (fst (start_license_monitoring rt self first beats))
     = license_status_request self
         :: actions (fst (heartbeat_loop rt self beats)).
Proof.
  intros Hret Hvalid Hrem. unfold start_license_monitoring.
  pose proof (loader_call_trace "/api/loader/license-status" first) as Htr.
  fold (check_license_status self first) in Htr.
  destruct (check_license_status self first) as [tr o].
  cbn in Hret, Htr. subst. run. rewrite Hvalid. run.
  destruct (heartbeat_loop rt self beats) as [trl ol].
  destruct Hrem as [Hnone|[trm Hsome]].
  - rewrite Hnone. run. split; reflexivity.
  - rewrite Hsome. run. split; reflexivity.
Qed.

End WholeMonitor.

(** ** What the monitor does, apart from printing *)

Lemma actions_app tr tr' : actions (tr ++ tr') = (actions tr ++ actions tr')%list.
Proof. apply filter_app. Qed.

Section Quiet.

Context {R : Type}.

Lemma quiet_ret {A} (a : A) : quiet (ret (R:=R) a).
Proof. reflexivity. Qed.

Lemma quiet_print s : quiet (emit (R:=R) (Print s)).
Proof. reflexivity. Qed.

Lemma quiet_return {A} (r : R) : quiet (return_ (A:=A) r).
Proof. reflexivity. Qed.

Lemma quiet_lift {A} (x : exn + A) : quiet (lift (R:=R) x).
Proof. destruct x; reflexivity. Qed.

Lemma quiet_bind {A B} (p : prog R A) (k : A -> prog R B) :
  quiet p -> (forall a, quiet (k a)) -> quiet (bind p k).
Proof.
  unfold quiet, bind. destruct p as [tr [a|r|e|]]; simpl; intros Hp Hk; auto.
  specialize (Hk a). destruct (k a) as [tr' o']. simpl in *.
  now rewrite actions_app, Hp, Hk.
Qed.

Lemma quiet_when b (p : prog R unit) : quiet p -> quiet (when b p).
Proof. destruct b; simpl; auto using quiet_ret. Qed.

End Quiet.

Ltac hush :=
  repeat first
    [ apply quiet_ret | apply quiet_print | apply quiet_return
    | apply quiet_lift | apply quiet_when
    | apply quiet_bind; [|intro] ].

Section MonitorActions.

Import FovDarkLicenseChecker.

Variable rt : runtime.
Variable self : checker.

Lemma heartbeat_iteration_actions r :
  actions (fst (heartbeat_iteration rt self r))
  = [Sleep 60; heartbeat_request self].
Proof.
  unfold heartbeat_iteration.
  pose proof (loader_call_trace self "/api/loader/heartbeat" r) as Htr.
  fold (send_heartbeat self r) in Htr.
  destruct (send_heartbeat self r) as [tr o]. cbn in Htr. subst tr.
  match goal with
  | |- context [bind (call _ _) ?k] =>
      assert (Hk : forall hb, quiet (R:=bool) (k hb))
        by (intro; unfold remaining_text; hush);
      generalize dependent k
  end.
  intros k Hk.
  destruct o as [[]|v|e|]; cbn -[actions]; try reflexivity.
  - specialize (Hk VNone). unfold quiet in Hk.
    destruct (k VNone) as [tr' o']. unfold actions in *. cbn in *.
    now rewrite Hk.
  - specialize (Hk v). unfold quiet in Hk.
    destruct (k v) as [tr' o']. unfold actions in *. cbn in *.
    now rewrite Hk.
Qed.

(** X4. Apart from what it prints, the heartbeat loop does nothing but rounds
    of "sleep 60 seconds, send one heartbeat": one round for each reply it
    has consumed, never two requests without the sleep between them, and
    never more rounds than replies.  While the loop is still running it
    has made one round per reply; once it has returned or raised, replies
    that follow are never asked for. *)
Theorem heartbeat_loop_rounds beats :
  exists k,
    (k <= List.length beats)%nat
    /\ actions (fst (heartbeat_loop rt self beats)) = heartbeat_rounds self k
    /\ (snd (heartbeat_loop rt self beats) = Waiting ->
        k = List.length beats)
    /\ (snd (heartbeat_loop rt self beats) <> Waiting ->
        forall more,
          heartbeat_loop rt self (beats ++ more)
          = heartbeat_loop rt self beats).
Proof.
  induction beats as [|r beats (k & Hk & Hact & Hrun & Hstop)].
  - exists 0%nat. cbn. repeat split; auto. congruence.
  - pose proof (heartbeat_iteration_actions r) as Hit.
    pose proof (heartbeat_iteration_settled rt self r) as Hset.
    unfold settled in Hset.
    cbn [heartbeat_loop app List.length].
    destruct (heartbeat_iteration rt self r) as [tr o] eqn:Eit.
    cbn [fst snd] in Hit, Hset.
    destruct o as [[]|b|e|]; try congruence; unfold bind at 1 2 3 4.
    + destruct (heartbeat_loop rt self beats) as [tr' o'] eqn:E.
      cbn [fst snd] in *. exists (S k). rewrite actions_app, Hit, Hact.
      split; [lia | split; [reflexivity | split]].
      * intros Ho. now rewrite (Hrun Ho).
      * intros Ho more. unfold bind. now rewrite (Hstop Ho more).
    + exists 1%nat. cbn [fst snd]. rewrite Hit.
      split; [lia | split; [reflexivity | split; [discriminate|]]].
      reflexivity.
    + exists 1%nat. cbn [fst snd]. rewrite Hit.
      split; [lia | split; [reflexivity | split; [discriminate|]]].
      reflexivity.
Qed.

End MonitorActions.

(** ** [main] *)

Section TraceAll.

Context {R : Type}.
Variable P : event -> Prop.

Lemma trace_all_ret {A} (a : A) : trace_all P (ret (R:=R) a).
Proof. constructor. Qed.

Lemma trace_all_emit e : P e -> trace_all P (emit (R:=R) e).
Proof. intros H. repeat constructor. exact H. Qed.

Lemma trace_all_return {A} (r : R) : trace_all P (return_ (A:=A) r).
Proof. constructor. Qed.

Lemma trace_all_raise {A} e : trace_all P (raise (R:=R) (A:=A) e).
Proof. constructor. Qed.

Lemma trace_all_lift {A} (x : exn + A) : trace_all P (lift (R:=R) x).
Proof. destruct x; constructor. Qed.

Lemma trace_all_bind {A B} (p : prog R A) (k : A -> prog R B) :
  trace_all P p -> (forall a, trace_all P (k a)) -> trace_all P (bind p k).
Proof.
  unfold trace_all, bind. destruct p as [tr [a|r|e|]]; simpl; intros Hp Hk; auto.
  specialize (Hk a). destruct (k a) as [tr' o']. simpl in *.
  apply Forall_app. split; assumption.
Qed.

Lemma trace_all_when b (p : prog R unit) :
  trace_all P p -> trace_all P (when b p).
Proof. destruct b; simpl; auto using trace_all_ret. Qed.

Lemma trace_all_call {R'} (body : prog R' unit) (fallthrough : R') :
  trace_all P body -> trace_all P (call (R':=R) body fallthrough).
Proof. unfold trace_all, call. destruct body as [tr [a|r|e|]]; auto. Qed.

End TraceAll.

Ltac all_events :=
  repeat first
    [ apply trace_all_ret | apply trace_all_return | apply trace_all_raise
    | apply trace_all_lift | apply trace_all_when | apply trace_all_call
    | apply trace_all_emit
    | apply trace_all_bind; [|intro] ].

Section Main.

Import FovDarkLicenseChecker.

Variable rt : runtime.

Lemma start_license_monitoring_silent self first beats :
  trace_all (fun e => e <> start_announcement)
            (start_license_monitoring rt self first beats).
Proof.
  assert (Hloop : trace_all (fun e => e <> start_announcement)
                            (heartbeat_loop rt self beats)).
  { induction beats as [|r beats IH]; cbn [heartbeat_loop].
    - constructor.
    - apply trace_all_bind; [|intros _; exact IH].
      unfold heartbeat_iteration, send_heartbeat, remaining_text.
      repeat first
        [ apply trace_all_bind; [|intro]
        | apply trace_all_call
        | apply trace_all_when
        | apply trace_all_lift | apply trace_all_return | apply trace_all_ret
        | apply trace_all_emit; unfold start_announcement; cbn -[py_str]; congruence
        | unfold trace_all; rewrite loader_call_trace;
          repeat constructor; unfold start_announcement; congruence ]. }
  unfold start_license_monitoring, check_license_status, remaining_text.
  repeat first
    [ exact Hloop
    | apply trace_all_bind; [|intro]
    | apply trace_all_call
    | apply trace_all_when
    | apply trace_all_lift | apply trace_all_return | apply trace_all_ret
    | apply trace_all_emit; unfold start_announcement; cbn -[py_str]; congruence
    | unfold trace_all; rewrite loader_call_trace;
      repeat constructor; unfold start_announcement; congruence ].
Qed.

(** X5. [main] never reaches the branch that starts the protected program:
    whatever the server answers, for however long, and whatever is typed,
    the line "[OK] Iniciando cheat..." is never printed, because
    [start_license_monitoring] has no way of returning [True]. *)
Theorem main_never_starts h first beats stdin :
  ~ In start_announcement (fst (main rt h first beats stdin)).
Proof.
  intros Hin.
  assert (H : trace_all (fun e => e <> start_announcement)
                        (main rt h first beats stdin)).
  { unfold main.
    pose proof (start_license_monitoring_silent
                  (init h "http://localhost:5000") first beats) as Hs.
    pose proof (start_never_returns_true
                  rt (init h "http://localhost:5000") first beats) as Hn.
    unfold never_returns in Hn.
    apply trace_all_bind; [apply trace_all_emit; unfold start_announcement; congruence|].
    intros _.
    destruct (start_license_monitoring rt (init h "http://localhost:5000")
                                       first beats) as [tr o].
    unfold trace_all in Hs. cbn [fst snd] in Hs, Hn.
    destruct stdin, o as [[]|[]|e|]; try congruence; unfold trace_all; cbn;
      try exact Hs;
      (apply Forall_app; split; [exact Hs|];
       repeat constructor; unfold start_announcement; congruence). }
  unfold trace_all in H. rewrite Forall_forall in H.
  apply (H _ Hin). reflexivity.
Qed.

End Main.

(** ** Heartbeat bodies of the wrong type *)

Section HeartbeatTypes.

Import FovDarkLicenseChecker.

Variable rt : runtime.
Variable self : checker.

(** X6. A heartbeat answered with status 200 and a body of the wrong type ends
    the loop by an exception that nothing in the program catches: an
    [AttributeError] when the body, or its [timeRemaining], is not a JSON
    object, a [TypeError] when [totalMinutes] is neither a number nor a
    boolean. *)
Theorem heartbeat_wrong_types_raise beats rest :
  snd (heartbeat_loop rt self beats) = Waiting ->
  (forall v, (forall d, v <> VDict d) ->
     snd (heartbeat_loop rt self (beats ++ ok200 v :: rest))
     = Raised (Exn AttributeError (no_attribute rt v "get")))
  /\ (forall d vl x,
        lookup "valid" d = Some vl -> truthy vl = true ->
        lookup "timeRemaining" d = Some x -> (forall tr, x <> VDict tr) ->
        snd (heartbeat_loop rt self (beats ++ ok200 (VDict d) :: rest))
        = Raised (Exn AttributeError (no_attribute rt x "get")))
  /\ (forall d vl tr t,
        lookup "valid" d = Some vl -> truthy vl = true ->
        lookup "timeRemaining" d = Some (VDict tr) ->
        lookup "totalMinutes" tr = Some t ->
        (forall n, t <> VInt n) -> (forall b, t <> VBool b) ->
        snd (heartbeat_loop rt self (beats ++ ok200 (VDict d) :: rest))
        = Raised (Exn TypeError (not_comparable rt t))).
Proof.
  intros Hrun. split; [|split].
  - intros v Hv. rewrite (heartbeat_loop_snoc _ _ _ _ _ Hrun).
    unfold heartbeat_iteration, send_heartbeat, loader_call, ok200. run.
    destruct v; run; try reflexivity. now destruct (Hv entries).
  - intros d vl x Hvl Ht Hx Hnd. rewrite (heartbeat_loop_snoc _ _ _ _ _ Hrun).
    unfold heartbeat_iteration, send_heartbeat, loader_call, ok200. run.
    rewrite Hvl. run. rewrite Ht. run. rewrite Hx.
    destruct x; run; try reflexivity. now destruct (Hnd entries).
  - intros d vl tr t Hvl Ht Hx Hn Hni Hnb.
    rewrite (heartbeat_loop_snoc _ _ _ _ _ Hrun).
    unfold heartbeat_iteration, send_heartbeat, loader_call, ok200. run.
    rewrite Hvl. run. rewrite Ht. run. rewrite Hx. run. rewrite Hn.
    destruct t; run; try reflexivity;
      [now destruct (Hnb b) | now destruct (Hni n)].
Qed.

End HeartbeatTypes.

Lemma heartbeat_wrong_types_raise_witness :
  snd (FovDarkLicenseChecker.heartbeat_loop
         sample_runtime sample_checker
         ([ok200 (VDict (sample_status 65))] ++ ok200 (VList []) :: []))
  = Raised (Exn AttributeError "object has no attribute 'get'")
  /\ snd (FovDarkLicenseChecker.heartbeat_loop
            sample_runtime sample_checker
            ([ok200 (VDict (sample_status 65))]
               ++ ok200 (VDict [("valid", VBool true);
                                ("timeRemaining",
                                 VDict [("totalMinutes", VStr "64")])])
               :: []))
     = Raised (Exn TypeError "'<=' not supported").
Proof.
  assert (Hrun : snd (FovDarkLicenseChecker.heartbeat_loop
                        sample_runtime sample_checker
                        [ok200 (VDict (sample_status 65))]) = Waiting)
    by (vm_compute; reflexivity).
  destruct (heartbeat_wrong_types_raise
              sample_runtime sample_checker _ [] Hrun) as (Hbody & _ & Htotal).
  split.
  - apply Hbody. discriminate.
  - apply (Htotal _ (VBool true) [("totalMinutes", VStr "64")] (VStr "64"));
      try reflexivity; discriminate.
Defined.

(** ** More on the fingerprints *)

Lemma byte_of_shift_low n e :
  0 <= e <= 10 ->
  Z.land (Z.shiftr n e) 0xff = Z.land (Z.shiftr (n mod 2 ^ 18) e) 0xff.
Proof.
  intros He. change 0xff with (Z.ones 8).
  rewrite !Z.land_ones by lia.
  apply Z.bits_inj'. intros i Hi.
  destruct (Z.lt_ge_cases i 8) as [Hlt|Hge].
  - rewrite !Z.mod_pow2_bits_low by lia.
    rewrite !Z.shiftr_spec by lia.
    rewrite Z.mod_pow2_bits_low by lia. reflexivity.
  - rewrite !Z.mod_pow2_bits_high by lia. reflexivity.
Qed.

(** X7. [generate_hwid] reads the node identifier through shifts of 0, 2, ...,
    10 bits, not of whole bytes, so only its 18 lowest bits count: two
    machines with the same names whose node identifiers agree on these bits
    get the same fingerprint, however the other 30 bits differ. *)
Theorem generate_hwid_low_bits (h h' : host) :
  platform_node h = platform_node h' ->
  platform_processor h = platform_processor h' ->
  platform_system h = platform_system h' ->
  uuid_getnode h mod 2 ^ 18 = uuid_getnode h' mod 2 ^ 18 ->
  mac_address h = mac_address h' /\ generate_hwid h = generate_hwid h'.
Proof.
  intros Hn Hp Hs Hbits.
  assert (Hmac : mac_address h = mac_address h').
  { unfold mac_address. cbn [map].
    rewrite !(byte_of_shift_low (uuid_getnode h)) by lia.
    rewrite !(byte_of_shift_low (uuid_getnode h')) by lia.
    now rewrite Hbits. }
  split; [exact Hmac|].
  unfold generate_hwid, combined, system_info. now rewrite Hn, Hp, Hs, Hmac.
Qed.

Lemma generate_hwid_low_bits_witness :
  generate_hwid sample_host
  = generate_hwid (Host 0xffeeddcd5e6f "PC-01" "Intel64 Family 6" "Windows"
                        sample_environ true).
Proof.
  apply (generate_hwid_low_bits
           sample_host
           (Host 0xffeeddcd5e6f "PC-01" "Intel64 Family 6" "Windows"
                 sample_environ true)); reflexivity.
Defined.

(** X8. [gerar_hwid] joins its three parts with nothing between them, so it
    cannot tell where the machine name ends and the user name begins:
    moving characters from the end of COMPUTERNAME to the front of USERNAME
    leaves the fingerprint unchanged, and an unset variable counts as an
    empty one. *)
Theorem gerar_hwid_boundary (h h' : host) (a b c : string) :
  uuid_getnode h = uuid_getnode h' ->
  getenv h "COMPUTERNAME" "" = a ++ b ->
  getenv h "USERNAME" "" = c ->
  getenv h' "COMPUTERNAME" "" = a ->
  getenv h' "USERNAME" "" = b ++ c ->
  gerar_hwid h = gerar_hwid h'.
Proof.
  intros Hn Hc Hu Hc' Hu'. unfold gerar_hwid, gerar_hwid_raw.
  now rewrite Hn, Hc, Hu, Hc', Hu', append_assoc.
Qed.

Lemma gerar_hwid_boundary_witness :
  gerar_hwid sample_host
  = gerar_hwid (Host 0x1a2b3c4d5e6f "PC-01" "Intel64 Family 6" "Windows"
                     (fun name => if String.eqb name "COMPUTERNAME"
                                  then Some "PC-"
                                  else if String.eqb name "USERNAME"
                                       then Some "01ana" else None)
                     true).
Proof.
  apply (gerar_hwid_boundary sample_host _ "PC-" "01" "ana"); reflexivity.
Defined.

(** ** More on the login sequence *)

Ltac crack_value :=
  match goal with
  | |- context [match ?r with Responds _ => _ | Fails _ => _ end] =>
      is_var r; destruct r as [[? [?|?|?]]|?]
  | |- context [(?a =? 200)%Z] => destruct (Z.eqb_spec a 200)
  | |- context [match ?v with
                | VNone => _ | VBool _ => _ | VInt _ => _
                | VStr _ => _ | VList _ => _ | VDict _ => _
                end] => is_var v; destruct v
  | |- context [py_getitem _ ?v _] => is_var v; destruct v
  | |- context [py_get _ ?v _ _] => is_var v; destruct v
  | |- context [lookup ?k ?d] => is_var d; destruct (lookup k d) eqn:?
  | |- context [truthy ?v] => destruct (truthy v) eqn:?
  | |- context [is_Timeout ?c] => destruct (is_Timeout c) eqn:?
  | |- context [is_ConnectionError ?c] =>
      destruct (is_ConnectionError c) eqn:?
  | |- context [WINDOWS_REGISTRY_AVAILABLE ?h] =>
      destruct (WINDOWS_REGISTRY_AVAILABLE h) eqn:?
  end.

Ltac rewrite_lookups :=
  repeat match goal with
         | H : lookup ?k ?d = _ |- context [lookup ?k ?d] => rewrite H
         end.

Ltac run_values :=
  cbn -[String.append str_of_Z py_str gerar_hwid truthy lookup
        LoginWorker.msg_expired LoginWorker.msg_unauthorized
        LoginWorker.msg_credentials LoginWorker.msg_timeout
        LoginWorker.msg_connection LoginWorker.msg_check_status].

Ltac begin net :=
  destruct net as [lr cr sr];
  cbn [LoginWorker.login_reply LoginWorker.check_reply
       LoginWorker.save_reply] in *; subst;
  unfold LoginWorker.run, LoginWorker.attempt, LoginWorker.handler,
    LoginWorker.finished, salvar_hwid_no_registro, get_or in *.

Ltac into_reply r d :=
  destruct r as [[? [[| | | | |d]|?|?]]|?];
  cbn -[String.append str_of_Z py_str gerar_hwid] in *;
  try discriminate; try congruence;
  try match goal with
      | H : context [(?a =? 200)%Z] |- _ =>
          destruct (Z.eqb_spec a 200);
          [subst | try discriminate; congruence]
      end.

Ltac classify e :=
  destruct (is_Timeout (exn_cls e)), (is_ConnectionError (exn_cls e));
  run_values; repeat split; intros; try discriminate; reflexivity.

Section LoginRequests.

Import LoginWorker.

Variable rt : runtime.
Variable h : host.
Variable self : worker.

(** X9. The requests of a run, in order, for every possible set of replies:
    the login alone when it yields no token; then the license check, with
    the token as bearer; then, only when the license is reported valid,
    the binding of [gerar_hwid], with the same bearer.  Nothing else is
    ever requested, and nothing is requested twice. *)
Theorem run_requests net :
  let requests := filter is_request (fst (run rt h self net)) in
  match login_token (login_reply net) with
  | None => requests = [login_request self]
  | Some token =>
      let bearer := "Bearer " ++ py_str rt token in
      match licence_of (check_reply net) with
      | Some d =>
          if truthy (get_or d "valid" (VBool false))
          then requests = [login_request self; check_request bearer;
                           save_request bearer (gerar_hwid h)]
          else requests = [login_request self; check_request bearer]
      | None => requests = [login_request self; check_request bearer]
      end
  end.
Proof.
  destruct net as [lr cr sr].
  unfold run, attempt, handler, finished, salvar_hwid_no_registro, get_or.
  run_values. repeat (crack_value; run_values); try reflexivity; congruence.
Qed.


Lemma run_success_cases net msg :
  finished_signals (fst (run rt h self net)) = [(true, msg)]
  <-> exists token d,
        login_token (login_reply net) = Some token
        /\ licence_of (check_reply net) = Some d
        /\ truthy (get_or d "valid" (VBool false)) = true
        /\ accepted (save_reply net) = true
        /\ msg = "Licença ativa! Dias restantes: "
                   ++ py_str rt (get_or d "days_remaining" (VStr "??")).
Proof.
  destruct net as [lr cr sr].
  unfold run, attempt, handler, finished, salvar_hwid_no_registro, get_or.
  run_values.
  repeat (crack_value; run_values);
    (split;
     [ intros Heq;
       first
         [ discriminate Heq
         | injection Heq as <-; do 2 eexists;
           split; [reflexivity|]; split; [reflexivity|];
           rewrite_lookups; repeat split; assumption ]
     | intros (token & d & Ht & Hd & Hv & Ha & ->);
       try discriminate;
       try (injection Hd as <-;
            repeat match goal with
                   | H : lookup _ _ = _ |- _ => rewrite H in Hv
                   end;
            rewrite_lookups; try congruence; reflexivity) ]).
Qed.


(** X10. A run reports success in exactly one case: the login gave a
    token, the license check answered 200 with an object whose [valid] is
    true, and the binding answered 200.  The message then names
    [days_remaining], or "??" when the license reply has none. *)
Theorem run_success_iff net msg :
  finished_signals (fst (run rt h self net)) = [(true, msg)]
  <-> exists token d,
        login_token (login_reply net) = Some token
        /\ licence_of (check_reply net) = Some d
        /\ truthy (get_or d "valid" (VBool false)) = true
        /\ accepted (save_reply net) = true
        /\ msg = "Licença ativa! Dias restantes: "
                   ++ py_str rt (get_or d "days_remaining" (VStr "??")).
Proof. exact (run_success_cases net msg). Qed.

(** X11. The fingerprint is stored in the registry in exactly the runs that end
    in success on a machine where [winreg] is available, and what is
    stored is [gerar_hwid], the value the server has just accepted. *)
Theorem run_registry_write net x :
  In (RegistryWrite x) (fst (run rt h self net))
  <-> x = gerar_hwid h
      /\ WINDOWS_REGISTRY_AVAILABLE h = true
      /\ exists msg,
          finished_signals (fst (run rt h self net)) = [(true, msg)].
Proof.
  destruct net as [lr cr sr].
  unfold run, attempt, handler, finished, salvar_hwid_no_registro.
  run_values.
  repeat (crack_value; run_values);
    (split;
     [ intros Hin; repeat destruct Hin as [Hin|Hin];
       try discriminate Hin; try contradiction;
       injection Hin as <-; repeat split; eauto
     | intros (-> & Hav & msg & Hf);
       try discriminate; intuition ]).
Qed.

(** X12. An exception raised by any of the three calls ends the run with one
    failure report, and the same rule names it wherever it was raised: a
    timeout (a connect timeout is one) as a timeout, any other connection
    error as a connection error, anything else by its own text. *)
Theorem run_exception_message net e :
  login_reply net = Fails e
  \/ (login_token (login_reply net) <> None /\ check_reply net = Fails e)
  \/ (login_token (login_reply net) <> None
      /\ (exists d, licence_of (check_reply net) = Some d
                    /\ truthy (get_or d "valid" (VBool false)) = true)
      /\ save_reply net = Fails e) ->
  let reports := finished_signals (fst (run rt h self net)) in
  (is_Timeout (exn_cls e) = true -> reports = [(false, msg_timeout)])
  /\ (is_Timeout (exn_cls e) = false ->
      is_ConnectionError (exn_cls e) = true ->
      reports = [(false, msg_connection)])
  /\ (is_Timeout (exn_cls e) = false ->
      is_ConnectionError (exn_cls e) = false ->
      reports = [(false, "Erro de conexão: " ++ exn_text e)]).
Proof.
  intros Hstage reports. subst reports.
  destruct Hstage as [Hl|[[Htok Hc]|[Htok [(lic & Hd & Hv) Hs]]]];
    begin net.
  - run_values. classify e.
  - into_reply lr answer. destruct (lookup "token" answer) as [token|] eqn:Ht;
      [|congruence].
    run. rewrite ?Ht. run. classify e.
  - into_reply lr answer. destruct (lookup "token" answer) as [token|] eqn:Ht;
      [|congruence].
    into_reply cr licence. injection Hd as <-.
    run. rewrite ?Ht. run. rewrite ?Hv. run. classify e.
Qed.

End LoginRequests.

Section LoginFailures.

Import LoginWorker.

Variable rt : runtime.
Variable h : host.
Variable self : worker.

(** X13. A login answered with status 200 but without a usable token ends the
    run at once, reported as a connection error: with the text of the
    decoding error when the body is not JSON, with the interpreter's
    message when it is JSON but not an object, and with "'token'" when it
    is an object without that key. *)
Theorem run_login_without_token net :
  let reports := finished_signals (fst (run rt h self net)) in
  (forall txt, login_reply net = ok_not_json txt ->
     reports = [(false, "Erro de conexão: " ++ txt)])
  /\ (forall v, login_reply net = ok200 v ->
        (forall d, v <> VDict d) ->
        reports = [(false, "Erro de conexão: " ++ not_subscriptable rt v)])
  /\ (forall d, login_reply net = ok200 (VDict d) ->
        lookup "token" d = None ->
        reports = [(false, "Erro de conexão: 'token'")]).
Proof.
  intros reports. subst reports. unfold ok_not_json, ok200. split; [|split].
  - intros txt Hl. begin net. reflexivity.
  - intros v Hl Hv. begin net. destruct v; try reflexivity.
    now destruct (Hv entries).
  - intros d Hl Ht. begin net. run. rewrite Ht. reflexivity.
Qed.

(** X14. When the license check does not answer 200 the run reports the status
    it got; when it answers 200 with a body that is not a JSON object the
    run reports a connection error.  In both cases the binding is not
    requested. *)
Theorem run_license_check_unusable net token :
  login_token (login_reply net) = Some token ->
  let tr := fst (run rt h self net) in
  (forall resp, check_reply net = Responds resp -> status_code resp <> 200 ->
     finished_signals tr
     = [(false, "Erro ao checar licença." ++ nl ++ "Status: "
                  ++ str_of_Z (status_code resp))])
  /\ (forall txt, check_reply net = ok_not_json txt ->
        finished_signals tr = [(false, "Erro de conexão: " ++ txt)])
  /\ (forall v, check_reply net = ok200 v -> (forall d, v <> VDict d) ->
        finished_signals tr
        = [(false, "Erro de conexão: " ++ no_attribute rt v "get")])
  /\ (licence_of (check_reply net) = None ->
      existsb (is_request_to save_url) tr = false).
Proof.
  intros Htok tr. subst tr. begin net. into_reply lr answer.
  destruct (lookup "token" answer) as [tk|] eqn:Ht; [|discriminate].
  split; [|split; [|split]].
  - intros resp -> Hst. run. rewrite ?Ht. run.
    destruct (Z.eqb_spec (status_code resp) 200); [contradiction|].
    reflexivity.
  - intros txt ->. unfold ok_not_json. run. rewrite ?Ht. reflexivity.
  - intros v -> Hv. unfold ok200. run. rewrite ?Ht. run.
    destruct v; try reflexivity. now destruct (Hv entries).
  - run. rewrite ?Ht. run_values.
    repeat (crack_value; run_values); intros; try discriminate; reflexivity.
Qed.

(** X15. When the license check answers 200 with an object whose [valid] is
    missing or false in Python's sense (false, null, 0, an empty string or
    container), the run reports the expired license and does not request
    the binding. *)
Theorem run_license_not_valid net token d :
  login_token (login_reply net) = Some token ->
  licence_of (check_reply net) = Some d ->
  truthy (get_or d "valid" (VBool false)) = false ->
  finished_signals (fst (run rt h self net)) = [(false, msg_expired)]
  /\ existsb (is_request_to save_url) (fst (run rt h self net)) = false.
Proof.
  intros Htok Hlic Hv. begin net. into_reply lr answer.
  destruct (lookup "token" answer) as [tk|] eqn:Ht; [|discriminate].
  into_reply cr licence. injection Hlic as <-.
  run. rewrite ?Ht. run. rewrite ?Hv. split; reflexivity.
Qed.

End LoginFailures.

(** ** The saved credentials and the window *)

Section Credentials.

Variable rt : runtime.

(** X16. [carregar_login_local] never raises.  It gives two empty strings when
    the file is absent, cannot be opened, is not JSON, or holds JSON that
    is not an object; for an object it gives its [email] and [senha], an
    empty string standing for each one that is missing. *)
Theorem carregar_login_local_result d :
  exists email senha,
    carregar_login_local rt d = ([], Returned (email, senha))
    /\ (login_file d = None -> email = VStr "" /\ senha = VStr "")
    /\ (read_error d <> None -> email = VStr "" /\ senha = VStr "")
    /\ (forall text, login_file d = Some (NotJson text) ->
          email = VStr "" /\ senha = VStr "")
    /\ (forall v, login_file d = Some (Json v) -> (forall o, v <> VDict o) ->
          email = VStr "" /\ senha = VStr "")
    /\ (forall o, login_file d = Some (Json (VDict o)) ->
          read_error d = None ->
          email = get_or o "email" (VStr "")
          /\ senha = get_or o "senha" (VStr "")).
Proof.
  destruct d as [[[v|text|text]|] [e|] we]; unfold carregar_login_local, get_or;
    cbn; try destruct v; cbn;
    do 2 eexists; (split; [reflexivity|]);
    repeat split; intros; try discriminate; try congruence;
    try match goal with
        | H : Some (Json _) = Some (Json _) |- _ => injection H as <-
        end;
    try reflexivity;
    try match goal with
        | H : forall o, VDict ?x <> VDict o |- _ => now destruct (H x)
        end.
Qed.

(** X17. Credentials saved by a login with "remember" ticked come back at the
    next start: provided the file can be written and read, the two fields
    are filled with the texts that were sent, stripped of surrounding
    white space, and the box is ticked again.  A later login with the box
    not ticked does not forget them. *)
Theorem remembered_credentials_return d w w' w'' :
  strip (email_text w) <> "" ->
  strip (senha_text w) <> "" ->
  lembrar_checked w = true ->
  write_error d = None ->
  read_error d = None ->
  let saved := disk_after (login d w) in
  let restored :=
    Window (strip (email_text w)) (strip (senha_text w)) true
           (email_enabled w') (senha_enabled w') (lembrar_enabled w')
           (login_label w') (login_enabled w')
           (executar_visible w') (executar_enabled w')
           (progress_visible w') (progress_value w') (status_text w') in
  started (login d w)
  = Some (LoginWorker.Worker (strip (email_text w)) (strip (senha_text w)))
  /\ load_saved_credentials rt saved w' = inr restored
  /\ (lembrar_checked w'' = false ->
      load_saved_credentials rt (disk_after (login saved w'')) w'
      = inr restored).
Proof.
  intros He Hs Hl Hw Hr saved restored. subst saved restored.
  assert (Hlogin : login d w
                   = LoginResult
                       (set_progress_value
                          0 (set_progress_visible true
                                                  (set_ui_enabled false w)))
                       (salvar_login_local d (strip (email_text w))
                                           (strip (senha_text w)))
                       None
                       (Some (LoginWorker.Worker (strip (email_text w))
                                                 (strip (senha_text w))))).
  { unfold login. rewrite Hl.
    destruct (String.eqb_spec (strip (email_text w)) ""); [contradiction|].
    destruct (String.eqb_spec (strip (senha_text w)) ""); [contradiction|].
    reflexivity. }
  rewrite Hlogin. cbn [started disk_after].
  assert (Hload : load_saved_credentials
                    rt (salvar_login_local d (strip (email_text w))
                                           (strip (senha_text w))) w'
                  = inr (Window (strip (email_text w)) (strip (senha_text w))
                                true
                                (email_enabled w') (senha_enabled w')
                                (lembrar_enabled w')
                                (login_label w') (login_enabled w')
                                (executar_visible w') (executar_enabled w')
                                (progress_visible w') (progress_value w')
                                (status_text w'))).
  { unfold load_saved_credentials, salvar_login_local, carregar_login_local.
    rewrite Hw. cbn. rewrite Hr. cbn.
    destruct (strip (email_text w)) as [|c e]; [contradiction|].
    destruct (strip (senha_text w)) as [|c' s]; [contradiction|].
    reflexivity. }
  split; [reflexivity | split; [exact Hload|]].
  intros Hno. unfold login at 1. rewrite Hno.
  destruct (_ || _); exact Hload.
Qed.


(** X19. At start the two fields are filled together or not at all: a file with
    only one of [email] and [senha], or with an empty one, leaves the
    window as it was; a file where both are present and true in Python's
    sense, one of them not a string, makes the start raise [TypeError]. *)
Theorem load_saved_credentials_edges d w o :
  login_file d = Some (Json (VDict o)) ->
  read_error d = None ->
  (truthy (get_or o "email" (VStr "")) = false
   \/ truthy (get_or o "senha" (VStr "")) = false ->
   load_saved_credentials rt d w = inr w)
  /\ (truthy (get_or o "email" (VStr "")) = true ->
      truthy (get_or o "senha" (VStr "")) = true ->
      (forall s, get_or o "email" (VStr "") <> VStr s)
      \/ (forall s, get_or o "senha" (VStr "") <> VStr s) ->
      load_saved_credentials rt d w = inl TypeError).
Proof.
  intros Hf Hr. unfold load_saved_credentials, carregar_login_local.
  rewrite Hf, Hr. cbn -[truthy]. fold (get_or o "email" (VStr "")).
  fold (get_or o "senha" (VStr "")).
  generalize (get_or o "email" (VStr "")) (get_or o "senha" (VStr "")).
  intros ve vs. split.
  - intros [H|H]; rewrite H; rewrite ?andb_false_r; reflexivity.
  - intros H1 H2 [Hns|Hns]; rewrite H1, H2; cbn [andb];
      destruct ve, vs; try reflexivity; exfalso; eapply Hns; reflexivity.
Qed.

End Credentials.

(** ** The execution of the script *)

Ltac run_script :=
  cbn -[String.append url_instalador url_executavel msg_install_failed
        msg_download_failed msg_executed].

(** The term on which the evaluation of a script is stuck. *)
Ltac stuck t :=
  lazymatch t with
  | (_, _) => fail "evaluated"
  | Script.bind ?p _ => stuck p
  | Script.try_except ?p _ => stuck p
  | Script.call ?p _ => stuck p
  | match ?x with (_, _) => _ end => stuck x
  | match ?x with
    | Next _ => _ | Returned _ => _ | Raised _ => _ | Waiting => _
    end => stuck x
  | match ?x with Some _ => _ | None => _ end => stuck x
  | match ?x with
    | InstallDir _ => _ | NoEntry => _ | RegistryError _ => _
    end => stuck x
  | match ?x with Responds _ => _ | Fails _ => _ end => stuck x
  | if ?b then _ else _ => stuck b
  | negb ?b => stuck b
  | _ => constr:(t)
  end.

Ltac step_script :=
  match goal with
  | |- context [fst ?p] =>
      let h := stuck p in
      lazymatch h with
      | (?a =? 200)%Z => destruct (Z.eqb_spec a 200)
      | _ => destruct h eqn:?
      end
  end.

Ltac unfold_script :=
  unfold execute, instalar_autohotkey_silencioso,
    verificar_autohotkey_instalado, remover_atalhos_autohotkey,
    join_appdata, report, Script.attempt, Script.get.



Section ExecuteProperties.

Variable s : system.

Lemma urls_differ : String.eqb url_instalador url_executavel = false.
Proof. vm_compute. reflexivity. Qed.

(** All the runs of [ExecuteWorker.run], path by path. *)
Lemma execute_cases :
  let tr := fst (execute s) in
  let ready :=
    snd (verificar_autohotkey_instalado s) = Returned true
    \/ snd (instalar_autohotkey_silencioso s) = Returned true in
  (exists ok msg,
      reports tr = [(ok, msg)]
      /\ last tr (Signal (Progress 0)) = Signal (Finished ok msg)
      /\ (snd (execute s) = Next tt \/ snd (execute s) = Returned tt))
  /\ (List.length (filter launches tr) <= 1)%nat
  /\ (existsb launches tr = true ->
      accepted (payload_reply s) = true /\ ready)
  /\ (forall msg, reports tr = [(true, msg)] ->
      existsb launches tr = true /\ msg = msg_executed)
  /\ (existsb (downloads url_executavel) tr = true -> ready)
  /\ (snd (verificar_autohotkey_instalado s) = Returned false ->
      snd (instalar_autohotkey_silencioso s) = Returned false ->
      reports tr = [(false, msg_install_failed)]).
Proof.
  unfold accepted, downloads. unfold_script. run_script.
  repeat (step_script; run_script);
    rewrite ?urls_differ, ?String.eqb_refl; run_script;
    (split; [do 2 eexists; split; [reflexivity | split; [reflexivity | auto]]|];
     split; [lia|]; split;
     [ intros H; first [discriminate H | split; [reflexivity | auto]]
     | split;
       [ intros msg H; first [discriminate H | injection H as <-; auto]
       | split;
         [ intros H; first [discriminate H | auto]
         | intros H1 H2;
           first [discriminate H1 | discriminate H2 | reflexivity] ] ] ]).
Qed.


(** X21. The downloaded program is started at most once, and only when the
    download answered 200 and AutoHotkey was either found or reported as
    installed; a run that reports success has started it. *)
Theorem execute_launch_conditions :
  let tr := fst (execute s) in
  (List.length (filter launches tr) <= 1)%nat
  /\ (existsb launches tr = true ->
      accepted (payload_reply s) = true
      /\ (snd (verificar_autohotkey_instalado s) = Returned true
          \/ snd (instalar_autohotkey_silencioso s) = Returned true))
  /\ (forall msg, reports tr = [(true, msg)] ->
      existsb launches tr = true /\ msg = msg_executed).
Proof.
  destruct execute_cases as (_ & Hone & Hlaunch & Hok & _).
  exact (conj Hone (conj Hlaunch Hok)).
Qed.

(** X22. The program is not even downloaded unless AutoHotkey was found or
    reported as installed; when it was neither, the run reports the failed
    installation. *)
Theorem execute_needs_autohotkey :
  let tr := fst (execute s) in
  (existsb (downloads url_executavel) tr = true ->
   snd (verificar_autohotkey_instalado s) = Returned true
   \/ snd (instalar_autohotkey_silencioso s) = Returned true)
  /\ (snd (verificar_autohotkey_instalado s) = Returned false ->
      snd (instalar_autohotkey_silencioso s) = Returned false ->
      reports tr = [(false, msg_install_failed)]).
Proof. exact (proj2 (proj2 (proj2 (proj2 execute_cases)))). Qed.

(** X23. [verificar_autohotkey_instalado] does nothing to the machine.  Without
    [winreg] it answers [False].  Otherwise the key of the local machine is
    read first: an [InstallDir] there with the program in it answers
    [True] whatever the key of the user holds, and an error other than
    "not found" is raised, again whatever the key of the user holds; only
    a missing entry, or one without the program, hands over to the key of
    the user. *)
Theorem verificar_autohotkey_result :
  fst (verificar_autohotkey_instalado s) = []
  /\ (registry_available s = false ->
      snd (verificar_autohotkey_instalado s) = Returned false)
  /\ (registry_available s = true ->
      (forall dir, hklm_autohotkey s = InstallDir dir ->
         path_exists s (path_join s dir "AutoHotkey.exe") = true ->
         snd (verificar_autohotkey_instalado s) = Returned true)
      /\ (forall e, hklm_autohotkey s = RegistryError e ->
            snd (verificar_autohotkey_instalado s) = Raised e)
      /\ (hklm_autohotkey s = NoEntry
          \/ (exists dir, hklm_autohotkey s = InstallDir dir
                          /\ path_exists s (path_join s dir "AutoHotkey.exe")
                             = false) ->
          snd (verificar_autohotkey_instalado s)
          = match hkcu_autohotkey s with
            | InstallDir dir =>
                Returned (path_exists s (path_join s dir "AutoHotkey.exe"))
            | NoEntry => Returned false
            | RegistryError e => Raised e
            end)).
Proof.
  unfold verificar_autohotkey_instalado. split; [|split].
  - destruct (registry_available s); [|reflexivity].
    destruct (hklm_autohotkey s) as [d| |e]; run_script;
      [destruct (path_exists s _); run_script| |]; try reflexivity;
      (destruct (hkcu_autohotkey s) as [d'| |e']; run_script;
       [destruct (path_exists s _)| |]; reflexivity).
  - intros ->. reflexivity.
  - intros ->. cbn [negb]. split; [|split].
    + intros dir -> ->. reflexivity.
    + intros e ->. reflexivity.
    + intros [->|(dir & -> & ->)]; run_script;
        (destruct (hkcu_autohotkey s) as [d'| |e']; run_script;
         [destruct (path_exists s _)| |]; reflexivity).
Qed.

(** X24. An error of the registry other than "not found" ends the execution at
    once, reported by its text: nothing is installed and nothing is
    downloaded, even when the other key shows AutoHotkey installed. *)
Theorem execute_registry_error e :
  registry_available s = true ->
  hklm_autohotkey s = RegistryError e
  \/ ((hklm_autohotkey s = NoEntry
       \/ exists dir, hklm_autohotkey s = InstallDir dir
                      /\ path_exists s (path_join s dir "AutoHotkey.exe")
                         = false)
      /\ hkcu_autohotkey s = RegistryError e) ->
  execute s
  = ([Signal (Status "Verificando dependências...");
      Signal (Progress 25);
      Signal (Finished false ("Erro ao executar: " ++ exn_text e))],
     Next tt).
Proof.
  intros Hreg Herr. unfold_script. rewrite Hreg.
  destruct Herr as [->|[[->|(dir & -> & ->)] ->]]; reflexivity.
Qed.

(** X25. [instalar_autohotkey_silencioso] never raises and reports nothing by
    itself.  An installer already in the temporary folder is run without
    any download.  Otherwise it is downloaded, with no timeout, and a
    reply other than 200 gives [False] with nothing written and nothing
    run.  When the answer is [True] the installer has been run. *)
Theorem instalar_autohotkey_result :
  let tr := fst (instalar_autohotkey_silencioso s) in
  (exists done, snd (instalar_autohotkey_silencioso s) = Returned done)
  /\ reports tr = []
  /\ (appdata s = None ->
      instalar_autohotkey_silencioso s = ([], Returned false))
  /\ (forall dir, appdata s = Some dir ->
      let installer :=
        path_join s (path_join s dir "darkfov_temp") "ahk-install.exe" in
      let argv := [installer; "/S"; "/NoDesktopIcon"; "/NoStartMenu";
                   "/NoQuickLaunch"] in
      (path_exists s installer = true ->
       existsb (downloads url_instalador) tr = false)
      /\ (path_exists s installer = false ->
          makedirs_error s (path_join s dir "darkfov_temp") = None ->
          accepted (installer_reply s) = false ->
          instalar_autohotkey_silencioso s
          = ([MakeDirs (path_join s dir "darkfov_temp");
              HttpGet url_instalador None], Returned false))
      /\ (snd (instalar_autohotkey_silencioso s) = Returned true ->
          In (Subprocess argv true) tr
          /\ subprocess_error s argv = None)).
Proof.
  unfold accepted, downloads. unfold_script. run_script.
  repeat (step_script; run_script);
    rewrite ?String.eqb_refl;
    (split; [eexists; reflexivity|]; split; [reflexivity|];
     split; [intros H; first [discriminate H | reflexivity]|];
     intros dir Hd; first [discriminate Hd | injection Hd as <-];
     run_script;
     (split; [intros H; first [discriminate H | congruence | reflexivity]|];
      split;
      [ intros H1 H2 H3;
        first [discriminate H1 | discriminate H2 | discriminate H3
              | congruence | reflexivity]
      | intros H; first [discriminate H | split; [cbn; auto 10 | congruence]]
      ])).
Qed.

End ExecuteProperties.

(** ** The window during and after a login *)

Section LoginWindow.

Variable rt : runtime.
Variable h : host.

Lemma deliver_app tr tr' w : deliver (tr ++ tr') w = deliver tr' (deliver tr w).
Proof. apply fold_left_app. Qed.

(** Signals other than [finished] touch the progress bar and the status
    line only. *)
Lemma deliver_quiet tr w :
  finished_signals tr = [] ->
  let w' := deliver tr w in
  email_text w' = email_text w /\ senha_text w' = senha_text w
  /\ lembrar_checked w' = lembrar_checked w
  /\ controls w' = controls w
  /\ login_label w' = login_label w
  /\ executar_visible w' = executar_visible w
  /\ progress_visible w' = progress_visible w.
Proof.
  revert w. induction tr as [|ev tr IH]; intros w Hq; [cbn; auto 10|].
  cbn in Hq. cbn [deliver fold_left].
  destruct ev as [| | |[t|n|ok m]|]; cbn in Hq; try discriminate;
    match goal with
    | |- context [fold_left _ tr ?w0] =>
        pose proof (IH w0 Hq) as H'; cbn in H' |- *; exact H'
    end.
Qed.

(** A trace with one [finished], at its end. *)
Lemma split_last_finished tr ok msg d :
  finished_signals tr = [(ok, msg)] ->
  last tr d = Emit (Finished ok msg) ->
  exists front, tr = (front ++ [Emit (Finished ok msg)])%list
                /\ finished_signals front = [].
Proof.
  intros Hf Hl.
  destruct (exists_last (l:=tr)) as (front & x & ->).
  { intros ->. discriminate. }
  rewrite last_last in Hl. subst x. exists front. split; [reflexivity|].
  assert (Happ : forall a b, finished_signals (a ++ b)
                             = (finished_signals a ++ finished_signals b)%list).
  { induction a as [|e a IHa]; intros b; [reflexivity|].
    cbn. destruct (finished_of e); cbn; now rewrite IHa. }
  rewrite Happ in Hf. cbn in Hf.
  destruct (finished_signals front) as [|f [|? ?]]; [reflexivity| |];
    discriminate.
Qed.


(** X26. From the click on "login" to the end of the worker.  While the worker
    runs, every control is disabled, so that no second login can be
    started, and the progress bar is shown at zero.  When the worker has
    finished, the fields are enabled again, the progress bar is hidden and
    the status line is empty; the button that executes the script has
    become visible exactly when the login gave a token, the license was
    reported valid and the binding was accepted, and in that case the
    login button stays disabled. *)
Theorem login_window_flow d w net :
  strip (email_text w) <> "" ->
  strip (senha_text w) <> "" ->
  executar_visible w = false ->
  let running := window_after (login d w) in
  let done := after_login rt h net d w in
  (controls running = [false; false; false; false; false]
   /\ progress_visible running = true /\ progress_value running = 0)
  /\ (email_enabled done = true /\ senha_enabled done = true
      /\ lembrar_enabled done = true /\ executar_enabled done = true
      /\ progress_visible done = false /\ status_text done = ""
      /\ email_text done = email_text w /\ senha_text done = senha_text w)
  /\ (executar_visible done = true
      <-> exists token lic,
            login_token (LoginWorker.login_reply net) = Some token
            /\ licence_of (LoginWorker.check_reply net) = Some lic
            /\ truthy (get_or lic "valid" (VBool false)) = true
            /\ accepted (LoginWorker.save_reply net) = true)
  /\ login_enabled done = negb (executar_visible done).
Proof.
  intros He Hs Hvis running done. subst running done.
  unfold after_login, login.
  destruct (String.eqb_spec (strip (email_text w)) ""); [contradiction|].
  destruct (String.eqb_spec (strip (senha_text w)) ""); [contradiction|].
  cbn [orb started window_after].
  set (worker := LoginWorker.Worker _ _).
  set (w1 := set_progress_value 0 _).
  destruct (run_reports_once rt h worker net) as (ok & msg & Hone & Hlast & _).
  destruct (split_last_finished _ _ _ _ Hone Hlast) as (front & Hfront & Hq).
  rewrite Hfront, deliver_app.
  destruct (deliver_quiet front w1 Hq) as (Hem & Hse & _ & Hc & _ & Hv & _).
  cbn [deliver fold_left on_login_signal].
  set (w2 := deliver front w1) in *.
  assert (Hok : ok = true
                <-> exists token lic,
                      login_token (LoginWorker.login_reply net) = Some token
                      /\ licence_of (LoginWorker.check_reply net) = Some lic
                      /\ truthy (get_or lic "valid" (VBool false)) = true
                      /\ accepted (LoginWorker.save_reply net) = true).
  { split.
    - intros ->. apply (run_success_cases rt h worker net msg) in Hone.
      destruct Hone as (token & lic & H1 & H2 & H3 & H4 & _). eauto 10.
    - intros (token & lic & H1 & H2 & H3 & H4).
      assert (Hyes : finished_signals (fst (LoginWorker.run rt h worker net))
                     = [(true, "Licença ativa! Dias restantes: "
                                 ++ py_str rt (get_or lic "days_remaining"
                                                      (VStr "??")))]).
      { apply run_success_cases. eauto 10. }
      rewrite Hone in Hyes. now injection Hyes. }
  split; [subst w1; cbn; auto|].
  split.
  - destruct ok; cbn; rewrite ?Hem, ?Hse; subst w1; cbn; auto 10.
  - split.
    + rewrite <- Hok. destruct ok; cbn; [tauto|].
      rewrite Hv. subst w1. cbn. rewrite Hvis. split; discriminate.
    + destruct ok; cbn; [reflexivity|].
      rewrite Hv. subst w1. cbn. rewrite Hvis. reflexivity.
Qed.

(** X27. Running the script undoes part of a successful login: the login has
    disabled its own button for good, but [execute_finished] enables every
    control again, the login button among them. *)
Theorem login_button_after_execute w :
  let logged := login_finished_window true w in
  let executed := execute_finished_window (executar_script logged) in
  login_enabled logged = false
  /\ login_enabled executed = true
  /\ login_label executed = "LOGIN REALIZADO"
  /\ controls executed = [true; true; true; true; true].
Proof. cbn. auto. Qed.

End LoginWindow.

(** ** The properties above, on concrete runs *)

Lemma start_rejects_invalid_status_witness :
  FovDarkLicenseChecker.start_license_monitoring
    sample_runtime sample_checker
    (ok200 (VDict (license_status false "Licença expirada" "pro" 0 0 0 0)))
    [ok200 (VDict (sample_status 65))]
  = ([Print "[FOVDARK] Iniciando verificação de licença...";
      Print ("[FOVDARK] HWID: " ++ FovDarkLicenseChecker.hwid sample_checker);
      license_status_request sample_checker;
      Print "[ERRO] Licença expirada"],
     Returned false).
Proof.
  apply (start_rejects_invalid_status
           sample_runtime sample_checker _ _
           (license_status false "Licença expirada" "pro" 0 0 0 0));
    vm_compute; reflexivity.
Defined.

Lemma start_enters_loop_witness :
  snd (FovDarkLicenseChecker.start_license_monitoring
         sample_runtime sample_checker
         (ok200 (VDict (sample_status 65)))
         [Fails (Exn Timeout "timed out")])
  = Returned false.
Proof.
  destruct (start_enters_loop
              sample_runtime sample_checker
              (ok200 (VDict (sample_status 65)))
              [Fails (Exn Timeout "timed out")]
              (sample_status 65)) as [Hout _].
  - vm_compute; reflexivity.
  - reflexivity.
  - right. eexists. reflexivity.
  - rewrite Hout. vm_compute. reflexivity.
Defined.

Lemma run_exception_message_witness :
  finished_signals
    (fst (LoginWorker.run
            sample_runtime sample_host sample_worker
            (LoginWorker.Network
               (ok200 token_T1)
               (Fails (Exn ConnectTimeout "connect timed out"))
               (ok200 VNone))))
  = [(false, LoginWorker.msg_timeout)].
Proof.
  destruct (run_exception_message
              sample_runtime sample_host sample_worker
              (LoginWorker.Network
                 (ok200 token_T1)
                 (Fails (Exn ConnectTimeout "connect timed out"))
                 (ok200 VNone))
              (Exn ConnectTimeout "connect timed out")) as [Htimeout _].
  - right. left. split; [discriminate | reflexivity].
  - apply Htimeout. reflexivity.
Defined.

Lemma run_license_check_unusable_witness :
  finished_signals
    (fst (LoginWorker.run
            sample_runtime sample_host sample_worker
            (LoginWorker.Network
               (ok200 token_T1)
               (Responds (Response 503 (NotJson "<html>")))
               (ok200 VNone))))
  = [(false, "Erro ao checar licença." ++ nl ++ "Status: 503")].
Proof.
  destruct (run_license_check_unusable
              sample_runtime sample_host sample_worker
              (LoginWorker.Network
                 (ok200 token_T1)
                 (Responds (Response 503 (NotJson "<html>")))
                 (ok200 VNone))
              (VStr "T1") eq_refl) as [Hstatus _].
  apply (Hstatus (Response 503 (NotJson "<html>")) eq_refl).
  discriminate.
Defined.

Lemma run_license_not_valid_witness :
  existsb (is_request_to LoginWorker.save_url)
          (fst (LoginWorker.run
                  sample_runtime sample_host sample_worker
                  (sample_session (ok200 VNone) [("valid", VInt 0)])))
  = false.
Proof.
  apply (run_license_not_valid
           sample_runtime sample_host sample_worker
           (sample_session (ok200 VNone) [("valid", VInt 0)])
           (VStr "T1") [("valid", VInt 0)]); reflexivity.
Defined.

Lemma remembered_credentials_return_witness :
  load_saved_credentials
    sample_runtime
    (disk_after (login empty_disk
                       (sample_window " ana@example.com" "segredo " true)))
    (sample_window "" "" false)
  = inr (sample_window "ana@example.com" "segredo" true).
Proof.
  destruct (remembered_credentials_return
              sample_runtime empty_disk
              (sample_window " ana@example.com" "segredo " true)
              (sample_window "" "" false)
              (sample_window "outra@example.com" "x" false))
    as (_ & Hload & _);
    [vm_compute; discriminate | vm_compute; discriminate
     | reflexivity | reflexivity | reflexivity |].
  rewrite Hload. vm_compute. reflexivity.
Defined.


Lemma load_saved_credentials_edges_witness :
  let d := Disk (Some (Json (VDict [("email", VInt 7);
                                    ("senha", VStr "segredo")])))
                None None in
  load_saved_credentials sample_runtime d (sample_window "" "" false)
  = inl TypeError.
Proof.
  destruct (load_saved_credentials_edges
              sample_runtime
              (Disk (Some (Json (VDict [("email", VInt 7);
                                        ("senha", VStr "segredo")])))
                    None None)
              (sample_window "" "" false)
              [("email", VInt 7); ("senha", VStr "segredo")]
              eq_refl eq_refl) as [_ Hraise].
  apply Hraise; try reflexivity. left. discriminate.
Defined.

Lemma execute_registry_error_witness :
  reports
    (fst (execute (sample_system
                     (RegistryError (Exn OtherException "Access is denied"))
                     (Responds (Response 200 (NotJson "MZ"))))))
  = [(false, "Erro ao executar: Access is denied")].
Proof.
  rewrite (execute_registry_error
             (sample_system
                (RegistryError (Exn OtherException "Access is denied"))
                (Responds (Response 200 (NotJson "MZ"))))
             (Exn OtherException "Access is denied") eq_refl
             (or_introl eq_refl)).
  reflexivity.
Defined.

Lemma login_window_flow_witness :
  let w := sample_window "ana@example.com" "segredo" false in
  let done :=
    after_login sample_runtime sample_host
                (sample_session (ok200 VNone) licence_5_days) empty_disk w in
  executar_visible done = true /\ login_enabled done = false.
Proof.
  destruct (login_window_flow
              sample_runtime sample_host empty_disk
              (sample_window "ana@example.com" "segredo" false)
              (sample_session (ok200 VNone) licence_5_days))
    as (_ & _ & Hvisible & Hlogin);
    [vm_compute; discriminate | vm_compute; discriminate | reflexivity |].
  assert (Hv : executar_visible
                 (after_login sample_runtime sample_host
                              (sample_session (ok200 VNone) licence_5_days)
                              empty_disk
                              (sample_window "ana@example.com" "segredo"
                                             false)) = true).
  { apply Hvisible. exists (VStr "T1"), licence_5_days.
    repeat split; reflexivity. }
  split; [exact Hv | rewrite Hlogin, Hv; reflexivity].
Defined.

